(** * AERAS backend (aeras-backend/server.js): ride lifecycle, scoring and
    the points ledger.

    The SQLite tables become finite maps keyed by their primary key, the
    append-only [points_history] table a list, and every Express handler a
    callback chain of database statements on the one shared connection
    [db].  The clock (CURRENT_TIMESTAMP, [new Date()]) is the argument
    [now] of a handler.  Statements fail where the schema and SQLite's
    transaction rules make them fail (a BEGIN inside a transaction, a
    COMMIT or ROLLBACK outside one, a NULL in a NOT NULL column).  Every
    statement that can fail this way is issued without a callback: the
    Database object then emits 'error', nothing listens to it, and the
    node process exits on the uncaught exception.  The [err] branches for
    failures of the storage itself, which answer 500, are left out. *)

From Stdlib Require Import ZArith QArith Qround Qabs Lia Bool.
From stdpp Require Import gmap strings list fin_maps.

Local Open Scope Z_scope.

(** ** JavaScript numbers

    A distance, a latitude or a longitude is a JS [number]: a finite
    double (each one is a rational, kept exactly), an infinity or NaN. *)

Inductive jsnum : Type :=
  | Finite (q : Q)
  | PosInf
  | NegInf
  | NaN.

(** [x <= y] of JavaScript: false as soon as one side is NaN. *)
Definition js_le (x y : jsnum) : bool :=
  match x, y with
  | NaN, _ | _, NaN => false
  | NegInf, _ => true
  | _, PosInf => true
  | Finite a, Finite b => Qle_bool a b
  | PosInf, _ => false
  | Finite _, NegInf => false
  end.

(** [x < y] of JavaScript. *)
Definition js_lt (x y : jsnum) : bool :=
  match x, y with
  | NaN, _ | _, NaN => false
  | PosInf, _ => false
  | _, NegInf => false
  | Finite a, Finite b => negb (Qle_bool b a)
  | NegInf, _ => true
  | Finite _, PosInf => true
  end.

Definition js_of_Z (z : Z) : jsnum := Finite (inject_Z z).

(** ** Helper functions of the server *)

(** [Math.floor(distanceMeters / 10)]; only reached with a finite
    argument in (0, 50]. *)
Definition floor_div10 (q : Q) : Z := Qfloor (q / inject_Z 10).

(** [calculatePoints(distanceMeters)], lines 131-150. *)
Definition calculatePoints (distanceMeters : jsnum) : Z :=
  let basePoints := 10 in
  if js_le distanceMeters (js_of_Z 0) then 10
  else if js_le distanceMeters (js_of_Z 50) then
    match distanceMeters with
    | Finite q =>
        let penalty := floor_div10 q in
        Z.max (basePoints - penalty) 8
    | _ => 8 (* unreachable: an infinity or NaN fails one of the two tests *)
    end
  else if js_le distanceMeters (js_of_Z 100) then 5
  else 0.

(** [x.toFixed(digits)] for a distance: the decimal closest to [x], the
    larger magnitude on a tie; kept as the number the printed text
    denotes.  (Magnitudes of 1e21 and more print in exponent form and are
    not distinguished here.) *)
Definition toFixed (digits : nat) (x : jsnum) : jsnum :=
  match x with
  | Finite q =>
      let scale := inject_Z (10 ^ Z.of_nat digits) in
      let half := (1 # 2)%Q in
      let n := if Qle_bool 0 q then Qfloor (q * scale + half)
               else - Qfloor ((- q) * scale + half) in
      Finite (inject_Z n / scale)
  | other => other
  end.

(** ** Schema (lines 22-111) *)

Inductive ride_status : Type :=
  | PENDING | ACCEPTED | PICKUP | COMPLETED | TIMEOUT | PENDING_REVIEW | CANCELLED.

Inductive rickshaw_status : Type :=
  | AVAILABLE | ON_RIDE | OFFLINE.

Inductive transaction_type : Type :=
  | EARNED | SPENT | ADJUSTED | EXPIRED.

#[global] Instance ride_status_eq_dec : EqDecision ride_status.
Proof. solve_decision. Defined.

#[global] Instance rickshaw_status_eq_dec : EqDecision rickshaw_status.
Proof. solve_decision. Defined.

#[global] Instance transaction_type_eq_dec : EqDecision transaction_type.
Proof. solve_decision. Defined.

(** Table [rickshaws], keyed by [rickshawID]. *)
Module Rickshaw.
Record t : Type := mk {
  pullerName : string;
  phoneNumber : option string;
  currentLat : Q;
  currentLng : Q;
  isOnline : bool;
  totalPoints : Z;
  status : rickshaw_status;
  lastUpdated : Z
}.
End Rickshaw.

(** Table [rides], keyed by [rideID]. *)
Module Ride.
Record t : Type := mk {
  userID : string;
  rickshawID : option string;
  pickupBlock : string;
  destination : string;
  requestTime : Z;
  acceptTime : option Z;
  pickupTime : option Z;
  dropTime : option Z;
  status : ride_status;
  dropLat : option Q;
  dropLng : option Q;
  dropDistance : option jsnum;
  pointsAwarded : Z
}.
End Ride.

(** Table [locations], keyed by [blockID]. *)
Module Location.
Record t : Type := mk {
  locationName : string;
  latitude : Q;
  longitude : Q
}.
End Location.

(** The [notes] column: which template literal wrote the text, with the
    values it interpolates. *)
Inductive note : Type :=
  | NoteRideCompleted (metres : jsnum)   (* `Ride completed - ${d.toFixed(1)}m from target` *)
  | NoteRedeemed (rewardType : string)   (* `Redeemed for ${rewardType}` *)
  | NoteOlderThan (expiryDays : Z)       (* `Points older than ${expiryDays} days` *)
  | NoteReason (reason : string).        (* the admin's reason *)

(** Table [points_history]; rows are only ever appended. *)
Module History.
Record t : Type := mk {
  historyID : Z;
  rickshawID : string;            (* NOT NULL *)
  rideID : option Z;
  pointsEarned : Z;               (* DEFAULT 0 *)
  pointsSpent : Z;                (* DEFAULT 0 *)
  transactionType : transaction_type;
  transactionDate : Z;
  notes : note
}.
End History.

(** The database file: the four tables the handlers below touch and the
    two AUTOINCREMENT counters of [sqlite_sequence]. *)
Record db : Type := mkDb {
  rides : gmap Z Ride.t;
  rickshaws : gmap string Rickshaw.t;
  locations : gmap string Location.t;
  points_history : list History.t;
  rides_seq : Z;
  history_seq : Z
}.

(** The one connection [db] every handler shares (line 13): the current
    contents; while a transaction is open, the contents a ROLLBACK
    returns to; and the errors of the statements that failed without a
    callback, each of which ended the process that issued it. *)
Record conn : Type := mkConn {
  data : db;
  txn : option db;
  unhandled : list string
}.

(** The locations seeded at start-up (lines 99-107). *)
Definition seed_locations : gmap string Location.t :=
  <["CUET_CAMPUS" := Location.mk "CUET Campus" (224633 # 10000) (919714 # 10000)]>
  (<["PAHARTOLI" := Location.mk "Pahartoli" (224725 # 10000) (919845 # 10000)]>
  (<["NOAPARA" := Location.mk "Noapara" (224580 # 10000) (919920 # 10000)]>
  (<["RAOJAN" := Location.mk "Raojan" (224520 # 10000) (919650 # 10000)]> ∅))).

Definition empty_db : db :=
  {| rides := ∅; rickshaws := ∅; locations := seed_locations;
     points_history := []; rides_seq := 0; history_seq := 0 |}.

Definition fresh_conn : conn :=
  {| data := empty_db; txn := None; unhandled := [] |}.

(** ** Handlers as callback chains

    What a handler sends back: [res.status(n).json({ error })] or one of
    the success bodies. *)
Inductive response : Type :=
  | Error (httpStatus : Z) (error : string)
  | Success                                           (* { success: true } *)
  | RideRequested (rideID : Z)                        (* { success: true, rideID, message } *)
  | AcceptRefused (message : string)                  (* { success: false, message } *)
  | RideAccepted (rideID : Z) (pickupBlock destination : string)
  | RideCompleted (points : Z) (distance : jsnum) (status : ride_status)
  | RideCancelled (message : string)
  | PointsRedeemed (newBalance : Z) (reward : string)
  | PointsAdjusted (pointDiff : Z)
  | PointsExpired (expired : Z) (rickshaws : option nat).

(** A handler is what it does next: nothing, answer the request, arm a
    timer, or hand the connection a statement together with the callback
    that receives the statement's outcome.  Statements a callback issues
    one after the other without waiting are chained in the order issued.
    The outcome of a statement is [None] when it failed with nobody to
    tell: it had no callback, so the error is thrown where nothing
    catches it and the process exits before anything else runs. *)
Inductive handler : Type :=
  | Finish
  | Reply (r : response) (rest : handler)
  | SetTimeout (ms : Z) (task : handler) (rest : handler)
  | Stmt {A : Type} (s : conn → conn * option A) (callback : A → handler).

Inductive event : Type :=
  | Replied (r : response)
  | Armed (ms : Z) (task : handler).

(** One request served with nothing else touching the connection.  What
    was answered before a statement fails stays answered; once a
    statement has failed the process is gone, and neither a callback nor
    a later statement of the handler runs. *)
Fixpoint run (h : handler) (c : conn) : conn * list event :=
  match h with
  | Finish => (c, [])
  | Reply r rest => let '(c', es) := run rest c in (c', Replied r :: es)
  | SetTimeout ms task rest => let '(c', es) := run rest c in (c', Armed ms task :: es)
  | Stmt s callback =>
      match s c with
      | (c', Some a) => run (callback a) c'
      | (c', None) => (c', [])
      end
  end.

(** *** Statements *)

Definition with_data (c : conn) (d : db) : conn :=
  {| data := d; txn := txn c; unhandled := unhandled c |}.

(** A statement without a callback fails: the database is left as it
    was, and the error is the uncaught exception the process exits on.
    Every use below pairs it with the outcome [None]. *)
Definition raise (message : string) (c : conn) : conn :=
  {| data := data c; txn := txn c; unhandled := unhandled c ++ [message] |}.

(** BEGIN TRANSACTION ([db.run] without a callback, line 315): fails
    when the connection already has a transaction open. *)
Definition sql_begin (c : conn) : conn * option unit :=
  match txn c with
  | None =>
      ({| data := data c; txn := Some (data c); unhandled := unhandled c |},
       Some ())
  | Some _ => (raise "cannot start a transaction within a transaction" c, None)
  end.

(** COMMIT (without a callback, line 362): fails when no transaction is
    open. *)
Definition sql_commit (c : conn) : conn * option unit :=
  match txn c with
  | Some _ =>
      ({| data := data c; txn := None; unhandled := unhandled c |}, Some ())
  | None => (raise "cannot commit - no transaction is active" c, None)
  end.

(** ROLLBACK (without a callback, lines 323-351): everything written on
    the connection since BEGIN is undone, whichever handler wrote it;
    fails when no transaction is open. *)
Definition sql_rollback (c : conn) : conn * option unit :=
  match txn c with
  | Some saved =>
      ({| data := saved; txn := None; unhandled := unhandled c |}, Some ())
  | None => (raise "cannot rollback - no transaction is active" c, None)
  end.

(** What the database file holds once the process is gone: a transaction
    that was open is never committed. *)
Definition database_file (c : conn) : db := default (data c) (txn c).

(** A SELECT. *)
Definition query {A : Type} (f : db → A) (c : conn) : conn * option A :=
  (c, Some (f (data c))).

(** An INSERT or UPDATE that cannot fail; the result is what the callback
    reads ([this.changes], [this.lastID]). *)
Definition exec {A : Type} (f : db → db * A) (c : conn) : conn * option A :=
  let '(d, a) := f (data c) in (with_data c d, Some a).

Definition with_rides (d : db) (m : gmap Z Ride.t) : db :=
  {| rides := m; rickshaws := rickshaws d; locations := locations d;
     points_history := points_history d; rides_seq := rides_seq d;
     history_seq := history_seq d |}.

Definition with_rickshaws (d : db) (m : gmap string Rickshaw.t) : db :=
  {| rides := rides d; rickshaws := m; locations := locations d;
     points_history := points_history d; rides_seq := rides_seq d;
     history_seq := history_seq d |}.

(** UPDATE rides SET ... WHERE rideID = ? AND <guard>; returns [changes]. *)
Definition update_ride (rideID : Z) (guard : Ride.t → bool)
    (set : Ride.t → Ride.t) (d : db) : db * Z :=
  match rides d !! rideID with
  | Some r =>
      if guard r then (with_rides d (<[rideID := set r]> (rides d)), 1)
      else (d, 0)
  | None => (d, 0)
  end.

(** UPDATE rickshaws SET ... WHERE rickshawID = ?; a NULL parameter
    matches no row. *)
Definition update_rickshaw (rickshawID : option string)
    (set : Rickshaw.t → Rickshaw.t) (d : db) : db * Z :=
  match rickshawID with
  | Some k =>
      match rickshaws d !! k with
      | Some rk => (with_rickshaws d (<[k := set rk]> (rickshaws d)), 1)
      | None => (d, 0)
      end
  | None => (d, 0)
  end.

(** The row an INSERT INTO points_history appends. *)
Definition append_history (k : string) (rideID : option Z)
    (pointsEarned pointsSpent : Z) (type : transaction_type) (now : Z)
    (notes : note) (d : db) : db * Z :=
  let id := history_seq d + 1 in
  ({| rides := rides d; rickshaws := rickshaws d; locations := locations d;
      points_history := points_history d ++
        [History.mk id k rideID pointsEarned pointsSpent type now notes];
      rides_seq := rides_seq d; history_seq := id |}, 1).

(** INSERT INTO points_history, always issued without a callback; a NULL
    [rickshawID] violates NOT NULL: nothing is inserted and the statement
    fails. *)
Definition insert_history (rickshawID : option string) (rideID : option Z)
    (pointsEarned pointsSpent : Z) (type : transaction_type) (now : Z)
    (notes : note) (c : conn) : conn * option Z :=
  match rickshawID with
  | Some k =>
      exec (append_history k rideID pointsEarned pointsSpent type now notes) c
  | None =>
      (raise "NOT NULL constraint failed: points_history.rickshawID" c, None)
  end.

(** INSERT INTO rides (userID, pickupBlock, destination, status); returns
    [this.lastID]. *)
Definition insert_ride (userID pickupBlock destination : string) (now : Z)
    (d : db) : db * Z :=
  let id := rides_seq d + 1 in
  ({| rides := <[id := Ride.mk userID None pickupBlock destination now
                         None None None PENDING None None None 0]> (rides d);
      rickshaws := rickshaws d; locations := locations d;
      points_history := points_history d; rides_seq := id;
      history_seq := history_seq d |}, id).

(** *** Column assignments of the UPDATE statements *)

Definition set_ride_status (s : ride_status) (r : Ride.t) : Ride.t :=
  Ride.mk (Ride.userID r) (Ride.rickshawID r) (Ride.pickupBlock r)
    (Ride.destination r) (Ride.requestTime r) (Ride.acceptTime r)
    (Ride.pickupTime r) (Ride.dropTime r) s (Ride.dropLat r) (Ride.dropLng r)
    (Ride.dropDistance r) (Ride.pointsAwarded r).

(** SET status = 'ACCEPTED', rickshawID = ?, acceptTime = CURRENT_TIMESTAMP *)
Definition set_accepted (rickshawID : string) (now : Z) (r : Ride.t) : Ride.t :=
  Ride.mk (Ride.userID r) (Some rickshawID) (Ride.pickupBlock r)
    (Ride.destination r) (Ride.requestTime r) (Some now)
    (Ride.pickupTime r) (Ride.dropTime r) ACCEPTED (Ride.dropLat r)
    (Ride.dropLng r) (Ride.dropDistance r) (Ride.pointsAwarded r).

(** SET status = 'PICKUP', pickupTime = CURRENT_TIMESTAMP *)
Definition set_picked_up (now : Z) (r : Ride.t) : Ride.t :=
  Ride.mk (Ride.userID r) (Ride.rickshawID r) (Ride.pickupBlock r)
    (Ride.destination r) (Ride.requestTime r) (Ride.acceptTime r)
    (Some now) (Ride.dropTime r) PICKUP (Ride.dropLat r) (Ride.dropLng r)
    (Ride.dropDistance r) (Ride.pointsAwarded r).

(** SET status = ?, dropTime = CURRENT_TIMESTAMP, dropLat = ?, dropLng = ?,
    dropDistance = ?, pointsAwarded = ? *)
Definition set_dropped (s : ride_status) (now : Z) (lat lng : Q)
    (distance : jsnum) (points : Z) (r : Ride.t) : Ride.t :=
  Ride.mk (Ride.userID r) (Ride.rickshawID r) (Ride.pickupBlock r)
    (Ride.destination r) (Ride.requestTime r) (Ride.acceptTime r)
    (Ride.pickupTime r) (Some now) s (Some lat) (Some lng)
    (Some distance) points.

(** SET status = 'PENDING', rickshawID = NULL, acceptTime = NULL *)
Definition set_reopened (r : Ride.t) : Ride.t :=
  Ride.mk (Ride.userID r) None (Ride.pickupBlock r)
    (Ride.destination r) (Ride.requestTime r) None
    (Ride.pickupTime r) (Ride.dropTime r) PENDING (Ride.dropLat r)
    (Ride.dropLng r) (Ride.dropDistance r) (Ride.pointsAwarded r).

(** SET pointsAwarded = ?, status = "COMPLETED" *)
Definition set_adjusted (newPoints : Z) (r : Ride.t) : Ride.t :=
  Ride.mk (Ride.userID r) (Ride.rickshawID r) (Ride.pickupBlock r)
    (Ride.destination r) (Ride.requestTime r) (Ride.acceptTime r)
    (Ride.pickupTime r) (Ride.dropTime r) COMPLETED (Ride.dropLat r)
    (Ride.dropLng r) (Ride.dropDistance r) newPoints.

Definition set_rickshaw_status (s : rickshaw_status) (rk : Rickshaw.t) : Rickshaw.t :=
  Rickshaw.mk (Rickshaw.pullerName rk) (Rickshaw.phoneNumber rk)
    (Rickshaw.currentLat rk) (Rickshaw.currentLng rk) (Rickshaw.isOnline rk)
    (Rickshaw.totalPoints rk) s (Rickshaw.lastUpdated rk).

(** SET totalPoints = totalPoints + ? *)
Definition add_points (delta : Z) (rk : Rickshaw.t) : Rickshaw.t :=
  Rickshaw.mk (Rickshaw.pullerName rk) (Rickshaw.phoneNumber rk)
    (Rickshaw.currentLat rk) (Rickshaw.currentLng rk) (Rickshaw.isOnline rk)
    (Rickshaw.totalPoints rk + delta) (Rickshaw.status rk)
    (Rickshaw.lastUpdated rk).

Definition any_row {A : Type} (_ : A) : bool := true.

Definition is_status (s : ride_status) (r : Ride.t) : bool :=
  bool_decide (Ride.status r = s).

(** *** Request fields

    [!x] of a request field: true for a missing field, for the number 0
    and for the empty string. *)
Definition missing_id (rideID : Z) : bool := rideID =? 0.
Definition missing_text (s : string) : bool := bool_decide (s = "").

(** ** The endpoints *)

(** The 60 s watchdog of a ride request (lines 181-188): the status is
    read, and the write is issued from the read's callback. *)
Definition watchdog (rideID : Z) : handler :=
  Stmt (query (λ d, Ride.status <$> rides d !! rideID)) (λ row,
    match row with
    | Some PENDING =>
        Stmt (exec (update_ride rideID any_row (set_ride_status TIMEOUT)))
             (λ _, Finish)
    | _ => Finish
    end).

(** POST /api/ride/request (lines 157-197); [userID] defaults to GUEST. *)
Definition requestRide (now : Z) (blockID destination : string)
    (userID : option string) : handler :=
  if missing_text blockID || missing_text destination
  then Reply (Error 400 "Missing required fields") Finish
  else
    Stmt (exec (insert_ride (default "GUEST" userID) blockID destination now))
      (λ rideID,
        SetTimeout 60000 (watchdog rideID)
          (Reply (RideRequested rideID) Finish)).

(** POST /api/rickshaw/register (lines 237-255): INSERT OR REPLACE, so a
    second registration starts the row again from the column defaults. *)
Definition registerRickshaw (now : Z) (rickshawID pullerName : string)
    (phoneNumber : option string) (currentLat currentLng : Q) : handler :=
  Stmt (exec (λ d,
          (with_rickshaws d
             (<[rickshawID := Rickshaw.mk pullerName phoneNumber currentLat
                                currentLng true 0 AVAILABLE now]> (rickshaws d)),
           1)))
       (λ _, Reply Success Finish).

(** POST /api/ride/accept (lines 305-381), callback by callback, innermost
    first. *)

(** [db.run('ROLLBACK')] of the two refusals (lines 328, 351). *)
Definition accept_rollback : handler :=
  Stmt sql_rollback (λ _, Finish).

Definition accept_refuse (message : string) : handler :=
  Reply (AcceptRefused message) accept_rollback.

(** [db.run('COMMIT')] (line 362). *)
Definition accept_commit : handler :=
  Stmt sql_commit (λ _, Finish).

(** The rickshaw goes ON_RIDE (lines 356-359), then the COMMIT. *)
Definition accept_mark (rickshawID : string) : handler :=
  Stmt (exec (update_rickshaw (Some rickshawID) (set_rickshaw_status ON_RIDE)))
    (λ _, accept_commit).

(** The callback of the conditional UPDATE (lines 344-376); [ride] is the
    row the SELECT returned. *)
Definition accept_updated (rideID : Z) (rickshawID : string) (ride : Ride.t)
    (changes : Z) : handler :=
  if changes =? 0
  then accept_refuse "Race condition"
  else
    Reply (RideAccepted rideID (Ride.pickupBlock ride) (Ride.destination ride))
      (accept_mark rickshawID).

(** The conditional UPDATE (lines 337-343). *)
Definition accept_update (now rideID : Z) (rickshawID : string) (ride : Ride.t)
    : handler :=
  Stmt (exec (update_ride rideID (is_status PENDING)
                (set_accepted rickshawID now)))
    (accept_updated rideID rickshawID ride).

(** The callback of the SELECT (lines 321-378). *)
Definition accept_selected (now rideID : Z) (rickshawID : string)
    (ride : option Ride.t) : handler :=
  match ride with
  | None => accept_refuse "Ride already taken by another puller"
  | Some r =>
      if negb (is_status PENDING r)
      then accept_refuse "Ride already taken by another puller"
      else accept_update now rideID rickshawID r
  end.

(** The SELECT (lines 318-320). *)
Definition accept_select (now rideID : Z) (rickshawID : string) : handler :=
  Stmt (query (λ d, rides d !! rideID)) (accept_selected now rideID rickshawID).

(** The body of [db.serialize]: BEGIN TRANSACTION, then the SELECT. *)
Definition accept_begin (now rideID : Z) (rickshawID : string) : handler :=
  Stmt sql_begin (λ _, accept_select now rideID rickshawID).

Definition acceptRide (now : Z) (rideID : Z) (rickshawID : string) : handler :=
  if missing_id rideID || missing_text rickshawID
  then Reply (Error 400 "Missing fields") Finish
  else accept_begin now rideID rickshawID.

(** POST /api/ride/pickup (lines 385-413). *)
Definition confirmPickup (now : Z) (rideID : Z) : handler :=
  if missing_id rideID
  then Reply (Error 400 "rideID required") Finish
  else
    Stmt (exec (update_ride rideID (is_status ACCEPTED) (set_picked_up now)))
      (λ changes,
        if changes =? 0
        then Reply (Error 400 "Ride not in accepted state") Finish
        else Reply Success Finish).

(** POST /api/ride/cancel (lines 653-687). *)
Definition cancelRide (rideID : Z) (rickshawID : string) : handler :=
  if missing_id rideID || missing_text rickshawID
  then Reply (Error 400 "Missing fields") Finish
  else
    Stmt (exec (update_ride rideID
                  (λ r, bool_decide (Ride.rickshawID r = Some rickshawID)
                        && (is_status ACCEPTED r || is_status PICKUP r))
                  set_reopened))
      (λ changes,
        if changes =? 0
        then Reply (Error 400 "Cannot cancel ride") Finish
        else
          Reply (RideCancelled "Ride cancelled, re-alerting others")
            (Stmt (exec (update_rickshaw (Some rickshawID)
                           (set_rickshaw_status AVAILABLE)))
               (λ _, Finish))).

(** POST /api/points/redeem (lines 690-735). *)
Definition redeemPoints (now : Z) (rickshawID : string) (points : Z)
    (rewardType : string) : handler :=
  if missing_text rickshawID || missing_id points
  then Reply (Error 400 "Missing fields") Finish
  else
    Stmt (query (λ d, Rickshaw.totalPoints <$> rickshaws d !! rickshawID))
      (λ row,
        match row with
        | None => Reply (Error 404 "Rickshaw not found") Finish
        | Some totalPoints =>
            if totalPoints <? points
            then Reply (Error 400 "Insufficient points") Finish
            else
              Stmt (exec (update_rickshaw (Some rickshawID) (add_points (- points))))
                (λ _,
                  Reply (PointsRedeemed (totalPoints - points) rewardType)
                    (Stmt (insert_history (Some rickshawID) None 0 points
                             SPENT now (NoteRedeemed rewardType))
                       (λ _, Finish)))
        end).

(** POST /api/admin/adjust-points (lines 586-620); [reason] defaults to
    'Admin adjustment', a missing [newPoints] is [None]. *)
Definition adjustPoints (now : Z) (rideID : Z) (newPoints : option Z)
    (reason : option string) : handler :=
  match newPoints with
  | None => Reply (Error 400 "Missing fields") Finish
  | Some newPoints =>
      if missing_id rideID
      then Reply (Error 400 "Missing fields") Finish
      else
        Stmt (query (λ d, rides d !! rideID)) (λ ride,
          match ride with
          | None => Reply (Error 404 "Ride not found") Finish
          | Some r =>
              let pointDiff := newPoints - Ride.pointsAwarded r in
              Stmt (exec (update_ride rideID any_row (set_adjusted newPoints)))
                (λ _,
                  Reply (PointsAdjusted pointDiff)
                    (Stmt (exec (update_rickshaw (Ride.rickshawID r)
                                   (add_points pointDiff)))
                       (λ _,
                         Stmt (insert_history (Ride.rickshawID r)
                                 (Some rideID) pointDiff 0 ADJUSTED now
                                 (NoteReason (default "Admin adjustment" reason)))
                           (λ _, Finish))))
          end)
  end.

(** *** Expiry (lines 738-795) *)

(** The calendar day (UTC) of a clock reading in seconds. *)
Definition day_of (t : Z) : Z := t / 86400.

(** [h.transactionDate < ?] (lines 750, 757).  The column holds the text
    of CURRENT_TIMESTAMP, 'YYYY-MM-DD HH:MM:SS' (line 84); the parameter
    is [expiryDate.toISOString()], 'YYYY-MM-DDTHH:MM:SS.sssZ'; both are
    UTC and SQLite compares the two texts byte by byte.  The day decides
    when the days differ, and on the same day the blank of the column
    sorts before the 'T' of the parameter: a row is older than the
    threshold when its day is not after the threshold's day, whatever
    the time of day. *)
Definition text_before (stored threshold : Z) : bool :=
  day_of stored <=? day_of threshold.

(** The WHERE clause of the selection, for one row [h] of the table
    [hist]: an EARNED row older than the threshold for which no row
    [h2] with [h2.historyID = h.historyID] is of type EXPIRED. *)
Definition expirable (expiryDate : Z) (hist : list History.t)
    (h : History.t) : bool :=
  bool_decide (History.transactionType h = EARNED)
  && text_before (History.transactionDate h) expiryDate
  && negb (existsb
             (λ h2, (History.historyID h2 =? History.historyID h)
                    && bool_decide (History.transactionType h2 = EXPIRED))
             hist).

(** GROUP BY rickshawID with SUM(pointsEarned): one row per rickshaw.
    SQLite groups by sorting on the key, so the rows come out in the
    byte order of [rickshawID]. *)
Fixpoint add_to_group (k : string) (v : Z) (groups : list (string * Z))
    : list (string * Z) :=
  match groups with
  | [] => [(k, v)]
  | (k', s) :: rest =>
      if bool_decide (k' = k) then (k', s + v) :: rest
      else if String.ltb k k' then (k, v) :: (k', s) :: rest
      else (k', s) :: add_to_group k v rest
  end.

Definition group_sum (rows : list History.t) : list (string * Z) :=
  fold_left (λ groups h,
               add_to_group (History.rickshawID h) (History.pointsEarned h) groups)
            rows [].

Definition expired_rows (expiryDate : Z) (d : db) : list (string * Z) :=
  group_sum (filter (λ h, expirable expiryDate (points_history d) h = true)
                    (points_history d)).

(** The body of [rows.forEach]: the debit and the EXPIRED row of each
    rickshaw, issued in row order. *)
Fixpoint expire_each (now expiryDays : Z) (rows : list (string * Z)) : handler :=
  match rows with
  | [] => Finish
  | (rickshawID, expiredPoints) :: rest =>
      Stmt (exec (update_rickshaw (Some rickshawID) (add_points (- expiredPoints))))
        (λ _,
          Stmt (insert_history (Some rickshawID) None (- expiredPoints) 0
                  EXPIRED now (NoteOlderThan expiryDays))
            (λ _, expire_each now expiryDays rest))
  end.

Definition sum_points (rows : list (string * Z)) : Z :=
  fold_left (λ totalExpired row, totalExpired + row.2) rows 0.

(** [days || 180], then [expiryDate.setDate(expiryDate.getDate() -
    expiryDays)]: that many days before the clock, of 86400 s each on a
    server whose local time has no daylight-saving changes. *)
Definition expirePoints (now : Z) (days : Z) : handler :=
  let expiryDays := if days =? 0 then 180 else days in
  let expiryDate := now - expiryDays * 86400 in
  Stmt (query (expired_rows expiryDate)) (λ rows,
    match rows with
    | [] => Reply (PointsExpired 0 None) Finish
    | _ =>
        Reply (PointsExpired (sum_points rows) (Some (length rows)))
          (expire_each now expiryDays rows)
    end).

Section Complete.

(** [calculateDistance(lat1, lon1, lat2, lon2)] (lines 115-128) is the
    haversine formula in double arithmetic; the ride logic only uses
    the number it returns, so it is a parameter here. *)
Variable calculateDistance : Q → Q → Q → Q → jsnum.

(** POST /api/ride/complete (lines 416-506); an [undefined] drop
    coordinate is [None]. *)
Definition completeRide (now : Z) (rideID : Z) (dropLat dropLng : option Q)
    : handler :=
  match dropLat, dropLng with
  | Some dropLat, Some dropLng =>
      if missing_id rideID
      then Reply (Error 400 "Missing fields") Finish
      else
        Stmt (query (λ d,
                r ← rides d !! rideID;
                l ← locations d !! Ride.destination r;
                Some (r, l)))
          (λ row,
            match row with
            | None => Reply (Error 404 "Ride not found") Finish
            | Some (ride, dest) =>
                let distanceFromDest :=
                  calculateDistance dropLat dropLng
                    (Location.latitude dest) (Location.longitude dest) in
                let points := calculatePoints distanceFromDest in
                let status :=
                  if js_le distanceFromDest (js_of_Z 100)
                  then COMPLETED else PENDING_REVIEW in
                Stmt (exec (update_ride rideID any_row
                              (set_dropped status now dropLat dropLng
                                 distanceFromDest points)))
                  (λ _,
                    Reply (RideCompleted points (toFixed 2 distanceFromDest) status)
                      (if 0 <? points
                       then
                         Stmt (exec (update_rickshaw (Ride.rickshawID ride)
                                       (λ rk, set_rickshaw_status AVAILABLE
                                                (add_points points rk))))
                           (λ _,
                             Stmt (insert_history (Ride.rickshawID ride)
                                     (Some rideID) points 0 EARNED now
                                     (NoteRideCompleted
                                        (toFixed 1 distanceFromDest)))
                               (λ _, Finish))
                       else
                         Stmt (exec (update_rickshaw (Ride.rickshawID ride)
                                       (set_rickshaw_status AVAILABLE)))
                           (λ _, Finish)))
            end)
  | _, _ => Reply (Error 400 "Missing fields") Finish
  end.

End Complete.

(** ** Requests in flight together

    Between two statements of one handler the connection serves whatever
    other handlers have issued.  [issue] is the part of a callback that
    runs at once (answers, timers) up to the next statement; [step] lets
    that statement execute and runs its callback.  A statement that fails
    ends the process, and with it both requests: what they had not yet
    answered is never answered. *)
Fixpoint issue (h : handler) : list event * handler :=
  match h with
  | Reply r rest => let '(es, h') := issue rest in (Replied r :: es, h')
  | SetTimeout ms task rest => let '(es, h') := issue rest in (Armed ms task :: es, h')
  | _ => ([], h)
  end.

Definition step (h : handler) (c : conn) : conn * list event * handler :=
  match h with
  | Stmt s callback =>
      match s c with
      | (c', Some a) => let '(es, h') := issue (callback a) in (c', es, h')
      | (c', None) => (c', [], h)
      end
  | _ => (c, [], h)
  end.

(** Whether the next statement of [h] fails on [c]. *)
Definition fails (h : handler) (c : conn) : bool :=
  match h with
  | Stmt s _ => match s c with (_, None) => true | _ => false end
  | _ => false
  end.

Definition finished (h : handler) : bool :=
  match h with Finish => true | _ => false end.

(** Two requests being served on the shared connection, and whether the
    process serving them has exited. *)
Record race : Type := mkRace {
  connection : conn;
  first : handler;
  first_events : list event;
  second : handler;
  second_events : list event;
  exited : bool
}.

Definition arrive (h1 h2 : handler) (c : conn) : race :=
  let '(e1, h1') := issue h1 in
  let '(e2, h2') := issue h2 in
  {| connection := c; first := h1'; first_events := e1;
     second := h2'; second_events := e2; exited := false |}.

(** The next statement of the first ([true]) or of the second ([false])
    request executes; when the one picked has nothing left to execute the
    turn goes to the other.  Nothing executes once the process has
    exited. *)
Definition advance (r : race) (who : bool) : race :=
  if exited r then r
  else
    let first_moves :=
      if who then negb (finished (first r)) else finished (second r) in
    if first_moves then
      let '(c', es, h') := step (first r) (connection r) in
      {| connection := c'; first := h'; first_events := first_events r ++ es;
         second := second r; second_events := second_events r;
         exited := fails (first r) (connection r) |}
    else
      let '(c', es, h') := step (second r) (connection r) in
      {| connection := c'; first := first r; first_events := first_events r;
         second := h'; second_events := second_events r ++ es;
         exited := fails (second r) (connection r) |}.

Definition interleave (schedule : list bool) (r : race) : race :=
  fold_left advance schedule r.

Definition is_accepted (es : list event) : bool :=
  match es with [Replied (RideAccepted _ _ _)] => true | _ => false end.

Definition is_refused (es : list event) : bool :=
  match es with [Replied (AcceptRefused _)] => true | _ => false end.

(** *** Two acceptances of one ride

    The states two acceptances of the ride [rideID] go through on a
    connection [c0] that has no transaction open and holds the ride as
    the PENDING row [row].  The request whose BEGIN runs first leads; the
    other one follows. *)
Section Acceptances.

Variables (c0 : conn) (now1 now2 rideID : Z) (k1 k2 : string) (row : Ride.t).

Definition puller (leader : bool) : string := if leader then k1 else k2.
Definition clock (leader : bool) : Z := if leader then now1 else now2.

Definition granted : list event :=
  [Replied (RideAccepted rideID (Ride.pickupBlock row) (Ride.destination row))].

Definition refused : list event :=
  [Replied (AcceptRefused "Ride already taken by another puller")].

(** The contents after the leader's UPDATE of the ride, and after its
    UPDATE of the rickshaw. *)
Definition ride_taken (leader : bool) : db :=
  with_rides (data c0)
    (<[rideID := set_accepted (puller leader) (clock leader) row]> (rides (data c0))).

Definition rickshaw_taken (leader : bool) : db :=
  (update_rickshaw (Some (puller leader)) (set_rickshaw_status ON_RIDE)
     (ride_taken leader)).1.

(** The connection after [n] statements of the two requests, none of
    which has failed. *)
Definition connection_after (leader : bool) (n : nat) : conn :=
  let during d saved := {| data := d; txn := Some saved; unhandled := unhandled c0 |} in
  let between d := {| data := d; txn := None; unhandled := unhandled c0 |} in
  match n with
  | 0 => c0
  | 1 | 2 => during (data c0) (data c0)                 (* BEGIN, SELECT *)
  | 3 => during (ride_taken leader) (data c0)            (* UPDATE rides *)
  | 4 => during (rickshaw_taken leader) (data c0)        (* UPDATE rickshaws *)
  | 5 => between (rickshaw_taken leader)                 (* COMMIT *)
  | 6 | 7 => during (rickshaw_taken leader) (rickshaw_taken leader)
  | _ => between (rickshaw_taken leader)                 (* ROLLBACK *)
  end%nat.

(** Where the leader stands after [n] statements: it issues five. *)
Definition leader_after (leader : bool) (n : nat) : handler * list event :=
  match n with
  | 0 => (accept_begin (clock leader) rideID (puller leader), [])
  | 1 => (accept_select (clock leader) rideID (puller leader), [])
  | 2 => (accept_update (clock leader) rideID (puller leader) row, [])
  | 3 => (accept_mark (puller leader), granted)
  | 4 => (accept_commit, granted)
  | _ => (Finish, granted)
  end%nat.

(** Where the follower stands: its BEGIN is the sixth statement. *)
Definition follower_after (leader : bool) (n : nat) : handler * list event :=
  match n with
  | 0 | 1 | 2 | 3 | 4 | 5 =>
      (accept_begin (clock (negb leader)) rideID (puller (negb leader)), [])
  | 6 => (accept_select (clock (negb leader)) rideID (puller (negb leader)), [])
  | 7 => (accept_rollback, refused)
  | _ => (Finish, refused)
  end%nat.

(** The two requests with the leader named. *)
Definition seen_from (leader : bool) (c : conn) (lead follow : handler * list event)
    (gone : bool) : race :=
  if leader
  then {| connection := c; first := lead.1; first_events := lead.2;
          second := follow.1; second_events := follow.2; exited := gone |}
  else {| connection := c; first := follow.1; first_events := follow.2;
          second := lead.1; second_events := lead.2; exited := gone |}.

(** How far the two requests have come: nothing has run; [n] statements
    have run, the leader's first; or the follower's BEGIN has failed
    after [n] statements of the leader, which ended the process. *)
Inductive phase : Type :=
  | Arrived
  | Running (leader : bool) (n : nat)
  | Gone (leader : bool) (n : nat).

Definition in_phase (p : phase) : race :=
  match p with
  | Arrived => seen_from true c0 (leader_after true 0) (follower_after true 0) false
  | Running leader n =>
      seen_from leader (connection_after leader n)
        (leader_after leader n) (follower_after leader n) false
  | Gone leader n =>
      seen_from leader
        (raise "cannot start a transaction within a transaction"
           (connection_after leader n))
        (leader_after leader n) (follower_after leader 0) true
  end.

(** The phase after the scheduler's next pick. *)
Definition next_phase (p : phase) (who : bool) : phase :=
  match p with
  | Arrived => Running who 1
  | Running leader n =>
      if (n <? 5)%nat
      then if Bool.eqb who leader then Running leader (S n) else Gone leader n
      else if (n <? 8)%nat then Running leader (S n) else p
  | Gone _ _ => p
  end.

End Acceptances.

(** ** The points ledger read back *)

Definition recorded (type : transaction_type) (column : History.t → Z)
    (rickshawID : string) (hist : list History.t) : Z :=
  fold_right Z.add 0
    (map column
       (filter (λ h, History.rickshawID h = rickshawID
                     ∧ History.transactionType h = type) hist)).

Definition sum_earned := recorded EARNED History.pointsEarned.
Definition sum_spent := recorded SPENT History.pointsSpent.
Definition sum_adjusted := recorded ADJUSTED History.pointsEarned.
Definition sum_expired := recorded EXPIRED History.pointsEarned.

(** The balance formula in the specification's words, over the amounts
    the log records. *)
Definition spec_balance (rickshawID : string) (hist : list History.t) : Z :=
  sum_earned rickshawID hist - sum_spent rickshawID hist
  + sum_adjusted rickshawID hist - sum_expired rickshawID hist.

(** The same with the EXPIRED amounts added: they are recorded negated
    (line 780). *)
Definition ledger_balance (rickshawID : string) (hist : list History.t) : Z :=
  sum_earned rickshawID hist - sum_spent rickshawID hist
  + sum_adjusted rickshawID hist + sum_expired rickshawID hist.

(** What one row adds to the balance of its rickshaw: the debit and the
    row are written by the same handler with the same sign. *)
Definition contribution (h : History.t) : Z :=
  match History.transactionType h with
  | SPENT => - History.pointsSpent h
  | EARNED | ADJUSTED | EXPIRED => History.pointsEarned h
  end.

(** Every registered rickshaw's cached [totalPoints] equals [formula]
    over the log. *)
Definition balanced_by (formula : string → list History.t → Z) (d : db) : Prop :=
  map_Forall (λ k rk, Rickshaw.totalPoints rk = formula k (points_history d))
             (rickshaws d).

#[global] Instance balanced_by_dec formula d : Decision (balanced_by formula d).
Proof. unfold balanced_by. apply _. Defined.

(** The operations that move points. *)
Inductive ledger_op : Type :=
  | Complete (now rideID : Z) (dropLat dropLng : option Q)
  | Redeem (now : Z) (rickshawID : string) (points : Z) (rewardType : string)
  | Adjust (now rideID : Z) (newPoints : option Z) (reason : option string)
  | Expire (now days : Z).

Definition ledger_handler (calculateDistance : Q → Q → Q → Q → jsnum)
    (op : ledger_op) : handler :=
  match op with
  | Complete now rideID dropLat dropLng =>
      completeRide calculateDistance now rideID dropLat dropLng
  | Redeem now rickshawID points rewardType =>
      redeemPoints now rickshawID points rewardType
  | Adjust now rideID newPoints reason => adjustPoints now rideID newPoints reason
  | Expire now days => expirePoints now days
  end.

(** Requests served one after the other. *)
Definition serve (c : conn) (h : handler) : conn := (run h c).1.

Definition serve_all (hs : list handler) (c : conn) : conn :=
  fold_left serve hs c.

(** ** Sample data for the examples

    A stand-in for [calculateDistance] that can be evaluated: 111 320 m
    per degree along each axis.  It only feeds the examples. *)
Definition grid_distance (lat1 lon1 lat2 lon2 : Q) : jsnum :=
  Finite ((Qabs (lat2 - lat1) + Qabs (lon2 - lon1)) * inject_Z 111320).

(** Two registered pullers and one ride request, CUET_CAMPUS to
    PAHARTOLI, which gets [rideID] 1. *)
Definition one_request : conn :=
  serve_all
    [ registerRickshaw 0 "RICK001" "Abdul Karim" (Some "01712345678")
        (224633 # 10000) (919714 # 10000);
      registerRickshaw 0 "RICK002" "Rahim" None
        (224725 # 10000) (919845 # 10000);
      requestRide 10 "CUET_CAMPUS" "PAHARTOLI" None ]
    fresh_conn.

(** The same after RICK001 accepted the ride. *)
Definition one_accepted : conn := serve one_request (acceptRide 20 1 "RICK001").

(** ... and after the pickup was confirmed. *)
Definition one_picked_up : conn := serve one_accepted (confirmPickup 30 1).

(** PAHARTOLI's catalogue coordinate. *)
Definition pahartoli_lat : Q := 224725 # 10000.
Definition pahartoli_lng : Q := 919845 # 10000.

(** ... and after the passenger was dropped exactly there. *)
Definition one_completed : conn :=
  serve one_picked_up
    (completeRide grid_distance 40 1 (Some pahartoli_lat) (Some pahartoli_lng)).

(** * Properties *)

(** ** Evaluating a handler *)

Lemma missing_id_false (z : Z) : z ≠ 0 → missing_id z = false.
Proof. intros H. unfold missing_id. by apply Z.eqb_neq. Qed.

Lemma missing_text_false (s : string) : s ≠ "" → missing_text s = false.
Proof. intros H. unfold missing_text. by apply bool_decide_eq_false. Qed.

(** Symbolic evaluation of a handler: unfold the statements, and use the
    lookups known from the context where a statement reads a table. *)
Ltac sql_cbn :=
  unfold query, exec, update_ride, update_rickshaw, insert_history,
    append_history, insert_ride, with_rides, with_rickshaws, with_data, raise,
    sql_begin, sql_commit, sql_rollback, any_row, accept_begin, accept_select,
    accept_selected, accept_update, accept_updated, accept_mark, accept_commit,
    accept_refuse, accept_rollback;
  cbn [run issue step orb Z.eqb data txn unhandled rides rickshaws locations
       points_history rides_seq history_seq fst snd mbind option_bind fmap
       option_fmap option_map
       Ride.userID Ride.rickshawID Ride.pickupBlock Ride.destination
       Ride.requestTime Ride.acceptTime Ride.pickupTime Ride.dropTime
       Ride.status Ride.dropLat Ride.dropLng Ride.dropDistance
       Ride.pointsAwarded Location.locationName Location.latitude
       Location.longitude Rickshaw.pullerName Rickshaw.phoneNumber
       Rickshaw.currentLat Rickshaw.currentLng Rickshaw.isOnline
       Rickshaw.totalPoints Rickshaw.status Rickshaw.lastUpdated];
  cbv beta.

Ltac sql_lookup :=
  match goal with
  | H : ?m !! ?k = _ |- context [?m !! ?k] => rewrite H
  end.

Ltac sql_run := repeat (sql_cbn; try sql_lookup).

(** ** Scoring *)

Lemma Qle_bool_false (a b : Q) : Qle_bool a b = false ↔ (b < a)%Q.
Proof.
  split; intros H.
  - apply Qnot_le_lt. intros Hle. apply Qle_bool_iff in Hle. congruence.
  - destruct (Qle_bool a b) eqn:E; [|done].
    apply Qle_bool_iff in E. exfalso. exact (Qlt_not_le _ _ H E).
Qed.

Lemma floor_div10_nonneg (q : Q) : (0 < q)%Q → 0 ≤ floor_div10 q.
Proof.
  intros Hq. unfold floor_div10.
  change 0 with (Qfloor (inject_Z 0)).
  apply Qfloor_resp_le. apply Qle_shift_div_l; [reflexivity|].
  rewrite Qmult_0_l. by apply Qlt_le_weak.
Qed.

Lemma calculatePoints_range (d : jsnum) : 0 ≤ calculatePoints d ≤ 10.
Proof.
  unfold calculatePoints.
  destruct (js_le d (js_of_Z 0)) eqn:E0; [lia|].
  destruct (js_le d (js_of_Z 50)) eqn:E50.
  - destruct d as [q| | |]; simpl in *; try lia.
    apply Qle_bool_false in E0.
    pose proof (floor_div10_nonneg q E0). lia.
  - destruct (js_le d (js_of_Z 100)); lia.
Qed.

(** C5: the four bands of [calculatePoints] with their inclusive upper
    ends (at most 0 gives 10; above 0 up to 50 gives
    max(10 - floor(d/10), 8); above 50 up to 100 gives 5; above 100 gives
    0), the values at 50 and at 100, and the range [0,10] of every
    result. *)
Theorem calculatePoints_bands (d : jsnum) :
  (js_le d (js_of_Z 0) = true → calculatePoints d = 10)
  ∧ (js_lt (js_of_Z 0) d = true ∧ js_le d (js_of_Z 50) = true →
       ∃ q, d = Finite q
            ∧ calculatePoints d = Z.max (10 - Qfloor (q / inject_Z 10)) 8
            ∧ 8 ≤ calculatePoints d ≤ 10)
  ∧ (js_lt (js_of_Z 50) d = true ∧ js_le d (js_of_Z 100) = true →
       calculatePoints d = 5)
  ∧ (js_lt (js_of_Z 100) d = true → calculatePoints d = 0)
  ∧ calculatePoints (js_of_Z 50) = 8
  ∧ calculatePoints (js_of_Z 100) = 5
  ∧ 0 ≤ calculatePoints d ≤ 10.
Proof.
  repeat split; try apply calculatePoints_range; try reflexivity.
  - intros H. unfold calculatePoints. by rewrite H.
  - intros [Hpos H50].
    destruct d as [q| | |]; simpl in Hpos, H50; try discriminate.
    exists q. apply negb_true_iff in Hpos.
    assert (calculatePoints (Finite q) = Z.max (10 - floor_div10 q) 8) as Hcp.
    { unfold calculatePoints. simpl. by rewrite Hpos, H50. }
    split; [done|]. split; [exact Hcp|].
    rewrite Hcp. apply Qle_bool_false in Hpos.
    pose proof (floor_div10_nonneg q Hpos). lia.
  - intros [Hgt H100].
    destruct d as [q| | |]; simpl in Hgt, H100; try discriminate.
    apply negb_true_iff in Hgt. pose proof Hgt as Hlt.
    apply Qle_bool_false in Hlt.
    unfold calculatePoints. simpl. rewrite Hgt, H100.
    destruct (Qle_bool q (inject_Z 0)) eqn:E0; [|done].
    apply Qle_bool_iff in E0. exfalso.
    apply (Qlt_not_le _ _ Hlt). eapply Qle_trans; [exact E0|]. discriminate.
  - intros Hgt.
    destruct d as [q| | |]; simpl in Hgt; try discriminate; [|reflexivity].
    apply negb_true_iff in Hgt. pose proof Hgt as Hlt.
    apply Qle_bool_false in Hlt.
    assert (∀ z, (z <= 100)%Z → Qle_bool q (inject_Z z) = false) as Hno.
    { intros z Hz. apply Qle_bool_false.
      eapply Qle_lt_trans; [|exact Hlt].
      rewrite <- Zle_Qle. exact Hz. }
    unfold calculatePoints. simpl.
    rewrite (Hno 0), (Hno 50), (Hno 100) by lia. reflexivity.
Qed.

(** ** Completing a ride *)

(** C6: completing an existing ride whose destination is in the
    catalogue.  The distance [d] of the drop point from the destination's
    coordinate decides the status (COMPLETED when [d <= 100], otherwise
    PENDING_REVIEW); the ride row receives that status, the drop time, the
    drop coordinates, [d] and the points of [d]; the answer carries the
    points, the distance (printed with two decimals) and the status; and
    the rickshaw the ride is assigned to, when it is registered, is
    AVAILABLE afterwards on either branch.  Ride ids start at 1. *)
Theorem completeRide_effect (calculateDistance : Q → Q → Q → Q → jsnum)
    (c : conn) (now rideID : Z) (dropLat dropLng : Q)
    (ride : Ride.t) (dest : Location.t) :
  rideID ≠ 0 →
  rides (data c) !! rideID = Some ride →
  locations (data c) !! Ride.destination ride = Some dest →
  let d := calculateDistance dropLat dropLng
             (Location.latitude dest) (Location.longitude dest) in
  let status := if js_le d (js_of_Z 100) then COMPLETED else PENDING_REVIEW in
  ∃ c' ride',
    run (completeRide calculateDistance now rideID (Some dropLat) (Some dropLng)) c
      = (c', [Replied (RideCompleted (calculatePoints d) (toFixed 2 d) status)])
    ∧ rides (data c') = <[rideID := ride']> (rides (data c))
    ∧ Ride.status ride' = status
    ∧ Ride.dropTime ride' = Some now
    ∧ Ride.dropLat ride' = Some dropLat
    ∧ Ride.dropLng ride' = Some dropLng
    ∧ Ride.dropDistance ride' = Some d
    ∧ Ride.pointsAwarded ride' = calculatePoints d
    ∧ (∀ k rk, Ride.rickshawID ride = Some k →
               rickshaws (data c) !! k = Some rk →
               ∃ rk', rickshaws (data c') !! k = Some rk'
                      ∧ Rickshaw.status rk' = AVAILABLE).
Proof.
  intros Hid Hride Hdest d status.
  destruct c as [[rs rks locs hist rseq hseq] t u]. cbn in Hride, Hdest.
  unfold completeRide. rewrite (missing_id_false _ Hid).
  sql_run. fold d. fold status.
  destruct (0 <? calculatePoints d) eqn:Hpts;
    (destruct (Ride.rickshawID ride) as [k|] eqn:Hk;
     [destruct (rks !! k) as [rk|] eqn:Hrk|]);
    sql_run; eexists _, _; (split; [reflexivity|]); cbn;
    repeat (split; [reflexivity|]);
    intros k' rk' Hk' Hrk'; simplify_eq;
    rewrite lookup_insert_eq; eexists; split; reflexivity.
Qed.

(** An instance of [completeRide_effect]: the picked-up sample ride is
    dropped exactly at PAHARTOLI. *)
Lemma completeRide_effect_witness :
  ∃ c',
    run (completeRide grid_distance 40 1 (Some pahartoli_lat) (Some pahartoli_lng))
        one_picked_up
      = (c', [Replied (RideCompleted 10 (Finite (0 # 100)) COMPLETED)])
    ∧ Ride.status <$> rides (data c') !! 1 = Some COMPLETED.
Proof.
  edestruct (completeRide_effect grid_distance one_picked_up 40 1
               pahartoli_lat pahartoli_lng)
    as (c' & ride' & Hrun & Hrides & Hstatus & _).
  - lia.
  - vm_compute. reflexivity.
  - vm_compute. reflexivity.
  - exists c'. split.
    + exact Hrun.
    + rewrite Hrides, lookup_insert_eq. cbn. by rewrite Hstatus.
Defined.

(** C2 fails on the code: the UPDATE of [completeRide] has no status in
    its WHERE clause.  The sample ride, accepted by RICK001 and never
    picked up, goes from ACCEPTED straight to COMPLETED or PENDING_REVIEW
    whatever the distance function is, and its pickup time stays NULL. *)
Theorem completeRide_skips_pickup (calculateDistance : Q → Q → Q → Q → jsnum) :
  let d := calculateDistance pahartoli_lat pahartoli_lng pahartoli_lat pahartoli_lng in
  let c' := serve one_accepted
              (completeRide calculateDistance 40 1
                 (Some pahartoli_lat) (Some pahartoli_lng)) in
  Ride.status <$> rides (data one_accepted) !! 1 = Some ACCEPTED
  ∧ Ride.status <$> rides (data c') !! 1
      = Some (if js_le d (js_of_Z 100) then COMPLETED else PENDING_REVIEW)
  ∧ Ride.pickupTime <$> rides (data c') !! 1 = Some None.
Proof.
  intros d c'. split; [vm_compute; reflexivity|].
  subst c'. unfold serve, completeRide.
  change (missing_id 1) with false. cbv iota.
  assert (rides (data one_accepted) !! 1 = Some (Ride.mk "GUEST" (Some "RICK001") "CUET_CAMPUS" "PAHARTOLI" 10 (Some 20) None None ACCEPTED None None None 0)) as Hride by (vm_compute; reflexivity).
  assert (locations (data one_accepted) !! "PAHARTOLI" = Some (Location.mk "Pahartoli" pahartoli_lat pahartoli_lng)) as Hloc by (vm_compute; reflexivity).
  assert (∃ rk, rickshaws (data one_accepted) !! "RICK001" = Some rk) as [rk Hrk] by (eexists; vm_compute; reflexivity).
  destruct one_accepted as [[rs rks locs hist rseq hseq] t u].
  cbn [data rides locations rickshaws] in Hride, Hloc, Hrk.
  sql_run. fold d.
  destruct (0 <? calculatePoints d); sql_run;
    rewrite lookup_insert_eq; split; reflexivity.
Qed.

(** ** Cancelling *)

(** C10: a ride that is ACCEPTED or PICKUP and assigned to the caller is
    reopened by [cancelRide]: status PENDING, rickshawID and acceptTime
    NULL, every other column as before.  In particular the pickup time
    survives, so a ride cancelled after pickup is PENDING with a pickup
    time. *)
Theorem cancelRide_frame (c : conn) (rideID : Z) (rickshawID : string)
    (r : Ride.t) :
  rideID ≠ 0 → rickshawID ≠ "" →
  rides (data c) !! rideID = Some r →
  Ride.rickshawID r = Some rickshawID →
  Ride.status r = ACCEPTED ∨ Ride.status r = PICKUP →
  ∃ c' r',
    run (cancelRide rideID rickshawID) c
      = (c', [Replied (RideCancelled "Ride cancelled, re-alerting others")])
    ∧ rides (data c') = <[rideID := r']> (rides (data c))
    ∧ Ride.status r' = PENDING
    ∧ Ride.rickshawID r' = None
    ∧ Ride.acceptTime r' = None
    ∧ Ride.userID r' = Ride.userID r
    ∧ Ride.pickupBlock r' = Ride.pickupBlock r
    ∧ Ride.destination r' = Ride.destination r
    ∧ Ride.requestTime r' = Ride.requestTime r
    ∧ Ride.pickupTime r' = Ride.pickupTime r
    ∧ Ride.dropTime r' = Ride.dropTime r
    ∧ Ride.dropLat r' = Ride.dropLat r
    ∧ Ride.dropLng r' = Ride.dropLng r
    ∧ Ride.dropDistance r' = Ride.dropDistance r
    ∧ Ride.pointsAwarded r' = Ride.pointsAwarded r
    ∧ (Ride.status r = PICKUP → is_Some (Ride.pickupTime r) →
       Ride.status r' = PENDING ∧ is_Some (Ride.pickupTime r')).
Proof.
  intros Hid Hk Hride Hassigned Hstatus.
  destruct c as [[rs rks locs hist rseq hseq] t u]. cbn in Hride.
  unfold cancelRide.
  rewrite (missing_id_false _ Hid), (missing_text_false _ Hk).
  assert (bool_decide (Ride.rickshawID r = Some rickshawID)
          && (is_status ACCEPTED r || is_status PICKUP r) = true) as Hguard.
  { rewrite bool_decide_eq_true_2 by done. unfold is_status.
    destruct Hstatus as [-> | ->]; reflexivity. }
  sql_run. rewrite Hguard. sql_run.
  destruct (rks !! rickshawID) as [rk|] eqn:Hrk; sql_run;
    eexists _, (set_reopened r); (split; [reflexivity|]);
    repeat (split; [reflexivity|]); done.
Qed.

(** An instance of [cancelRide_frame]: RICK001 cancels the sample ride
    after the pickup; the ride is PENDING again and still carries the
    pickup time 30. *)
Lemma cancelRide_frame_witness :
  ∃ c' r',
    run (cancelRide 1 "RICK001") one_picked_up
      = (c', [Replied (RideCancelled "Ride cancelled, re-alerting others")])
    ∧ rides (data c') !! 1 = Some r'
    ∧ Ride.status r' = PENDING
    ∧ Ride.pickupTime r' = Some 30.
Proof.
  edestruct (cancelRide_frame one_picked_up 1 "RICK001")
    as (c' & r' & Hrun & Hrides & Hstatus & _ & _ & _ & _ & _ & _ & Hpick & _).
  - lia.
  - discriminate.
  - vm_compute. reflexivity.
  - reflexivity.
  - right. reflexivity.
  - exists c', r'. split; [exact Hrun|]. split.
    + rewrite Hrides. apply lookup_insert_eq.
    + split; [exact Hstatus|]. rewrite Hpick. reflexivity.
Defined.

(** ** Accepting *)

(** What a successful acceptance leaves behind, with nothing else in
    flight. *)
Lemma acceptRide_pending (c : conn) (now rideID : Z) (rickshawID : string)
    (r : Ride.t) :
  rideID ≠ 0 → rickshawID ≠ "" → txn c = None →
  rides (data c) !! rideID = Some r →
  Ride.status r = PENDING →
  ∃ c',
    run (acceptRide now rideID rickshawID) c
      = (c', [Replied (RideAccepted rideID (Ride.pickupBlock r) (Ride.destination r))])
    ∧ rides (data c') = <[rideID := set_accepted rickshawID now r]> (rides (data c))
    ∧ txn c' = None
    ∧ unhandled c' = unhandled c.
Proof.
  intros Hid Hk Htxn Hride Hstatus.
  destruct c as [[rs rks locs hist rseq hseq] t u]. cbn in Hride, Htxn. subst t.
  unfold acceptRide.
  rewrite (missing_id_false _ Hid), (missing_text_false _ Hk).
  sql_run. unfold is_status. rewrite Hstatus. cbn [bool_decide decide_rel negb].
  rewrite bool_decide_eq_true_2 by done. cbn [negb]. sql_run.
  rewrite bool_decide_eq_true_2 by done. sql_run.
  destruct (rks !! rickshawID) as [rk|] eqn:Hrk; sql_run;
    eexists; repeat split; reflexivity.
Qed.

(** C9 as stated fails on the code: a call without a rickshaw id for the
    sample ride, which is ACCEPTED, and a call with ride id 0, which no
    ride has, are answered with the error 400 [Missing fields] instead of
    [success: false]; the state is untouched. *)
Lemma acceptRide_missing_id_is_error :
  Ride.status <$> rides (data one_accepted) !! 1 = Some ACCEPTED
  ∧ run (acceptRide 25 1 "") one_accepted
      = (one_accepted, [Replied (Error 400 "Missing fields")])
  ∧ rides (data one_accepted) !! 0 = None
  ∧ run (acceptRide 25 0 "RICK002") one_accepted
      = (one_accepted, [Replied (Error 400 "Missing fields")]).
Proof. repeat split; vm_compute; reflexivity. Qed.

(** A call with both ids, served with no transaction open, on a ride that
    is absent or not PENDING: BEGIN, SELECT, ROLLBACK. *)
Lemma acceptRide_not_pending (c : conn) (now rideID : Z) (rickshawID : string) :
  rideID ≠ 0 → rickshawID ≠ "" → txn c = None →
  (rides (data c) !! rideID = None
   ∨ ∃ r, rides (data c) !! rideID = Some r ∧ Ride.status r ≠ PENDING) →
  run (acceptRide now rideID rickshawID) c
    = (c, [Replied (AcceptRefused "Ride already taken by another puller")]).
Proof.
  intros Hid Hk Htxn Hride.
  destruct c as [d t u]. cbn in Hride, Htxn. subst t.
  unfold acceptRide.
  rewrite (missing_id_false _ Hid), (missing_text_false _ Hk).
  destruct Hride as [Hnone | (r & Hsome & Hstatus)]; sql_run.
  - reflexivity.
  - unfold is_status. rewrite bool_decide_eq_false_2 by done.
    cbn [negb]. sql_run. reflexivity.
Qed.

(** C9, amended: an acceptance of a ride that does not exist or is not
    PENDING, made with both ids present (a non-zero ride id, a non-empty
    rickshaw id) and served with no transaction open on the connection,
    is answered [success: false] and leaves the whole connection state
    (every ride, every rickshaw) as it was. *)
Theorem acceptRide_refused (c : conn) (now rideID : Z) (rickshawID : string) :
  rideID ≠ 0 → rickshawID ≠ "" → txn c = None →
  (rides (data c) !! rideID = None
   ∨ ∃ r, rides (data c) !! rideID = Some r ∧ Ride.status r ≠ PENDING) →
  run (acceptRide now rideID rickshawID) c
    = (c, [Replied (AcceptRefused "Ride already taken by another puller")]).
Proof. exact (acceptRide_not_pending c now rideID rickshawID). Qed.

(** An instance of [acceptRide_refused]: RICK002 asks for the sample ride
    after RICK001 got it. *)
Lemma acceptRide_refused_witness :
  run (acceptRide 25 1 "RICK002") one_accepted
    = (one_accepted, [Replied (AcceptRefused "Ride already taken by another puller")]).
Proof.
  apply (acceptRide_refused one_accepted 25 1 "RICK002").
  - lia.
  - discriminate.
  - reflexivity.
  - right. eexists. split; [vm_compute; reflexivity | discriminate].
Defined.

(** Served one after the other, the first acceptance of a PENDING ride is
    granted and assigns the ride; the second is refused and changes
    nothing. *)
Theorem accept_one_after_the_other (c : conn) (now1 now2 rideID : Z)
    (k1 k2 : string) (row : Ride.t) :
  rideID ≠ 0 → k1 ≠ "" → k2 ≠ "" → txn c = None →
  rides (data c) !! rideID = Some row →
  Ride.status row = PENDING →
  ∃ c1 ride',
    run (acceptRide now1 rideID k1) c
      = (c1, [Replied (RideAccepted rideID (Ride.pickupBlock row) (Ride.destination row))])
    ∧ run (acceptRide now2 rideID k2) c1
        = (c1, [Replied (AcceptRefused "Ride already taken by another puller")])
    ∧ rides (data c1) !! rideID = Some ride'
    ∧ Ride.status ride' = ACCEPTED
    ∧ Ride.rickshawID ride' = Some k1
    ∧ Ride.acceptTime ride' = Some now1
    ∧ (∀ rk, rickshaws (data c) !! k1 = Some rk →
             Rickshaw.status <$> rickshaws (data c1) !! k1 = Some ON_RIDE).
Proof.
  intros Hid Hk1 Hk2 Htxn Hrow Hpending.
  destruct (acceptRide_pending c now1 rideID k1 row Hid Hk1 Htxn Hrow Hpending)
    as (c1 & Hrun & Hrides & Htxn1 & _).
  exists c1, (set_accepted k1 now1 row).
  assert (rides (data c1) !! rideID = Some (set_accepted k1 now1 row)) as Hrow1.
  { rewrite Hrides. apply lookup_insert_eq. }
  split; [exact Hrun|]. split.
  { apply acceptRide_not_pending; try done. right. eexists. split; [exact Hrow1|]. done. }
  split; [exact Hrow1|]. repeat (split; [reflexivity|]).
  intros rk Hrk.
  destruct c as [[rs rks locs hist rseq hseq] t u]. cbn in Hrow, Htxn, Hrk. subst t.
  unfold acceptRide in Hrun.
  rewrite (missing_id_false _ Hid), (missing_text_false _ Hk1) in Hrun.
  revert Hrun. sql_run. unfold is_status.
  rewrite bool_decide_eq_true_2 by done. cbn [negb]. sql_run.
  rewrite bool_decide_eq_true_2 by done. sql_run.
  intros Hrun. simplify_eq. cbn. rewrite lookup_insert_eq. reflexivity.
Qed.

(** An instance of [accept_one_after_the_other] on the sample request. *)
Lemma accept_one_after_the_other_witness :
  ∃ c1,
    run (acceptRide 20 1 "RICK001") one_request
      = (c1, [Replied (RideAccepted 1 "CUET_CAMPUS" "PAHARTOLI")])
    ∧ run (acceptRide 21 1 "RICK002") c1
        = (c1, [Replied (AcceptRefused "Ride already taken by another puller")]).
Proof.
  destruct (accept_one_after_the_other one_request 20 21 1 "RICK001" "RICK002"
              (Ride.mk "GUEST" None "CUET_CAMPUS" "PAHARTOLI" 10 None None None
                 PENDING None None None 0))
    as (c1 & ride' & Hrun1 & Hrun2 & _).
  - lia.
  - discriminate.
  - discriminate.
  - reflexivity.
  - vm_compute. reflexivity.
  - reflexivity.
  - exists c1. split; [exact Hrun1 | exact Hrun2].
Defined.

(** ** Confirming the pickup *)

(** [confirmPickup] moves a ride to PICKUP, with the pickup time, exactly
    when the ride is ACCEPTED; on any other ride, or none, it answers 400
    and changes nothing. *)
Theorem confirmPickup_effect (c : conn) (now rideID : Z) :
  rideID ≠ 0 →
  match rides (data c) !! rideID with
  | Some r =>
      if bool_decide (Ride.status r = ACCEPTED)
      then run (confirmPickup now rideID) c
             = (with_data c (with_rides (data c)
                  (<[rideID := set_picked_up now r]> (rides (data c)))),
                [Replied Success])
           ∧ Ride.status (set_picked_up now r) = PICKUP
           ∧ Ride.pickupTime (set_picked_up now r) = Some now
           ∧ Ride.rickshawID (set_picked_up now r) = Ride.rickshawID r
      else run (confirmPickup now rideID) c
             = (c, [Replied (Error 400 "Ride not in accepted state")])
  | None => run (confirmPickup now rideID) c
              = (c, [Replied (Error 400 "Ride not in accepted state")])
  end.
Proof.
  intros Hid. destruct c as [[rs rks locs hist rseq hseq] t u].
  unfold confirmPickup. rewrite (missing_id_false _ Hid). cbn [data rides].
  destruct (rs !! rideID) as [r|] eqn:Hr.
  - case_bool_decide as Hst; sql_run; unfold is_status.
    + rewrite bool_decide_eq_true_2 by done. sql_run. repeat split; reflexivity.
    + rewrite bool_decide_eq_false_2 by done. sql_run. reflexivity.
  - sql_run. reflexivity.
Qed.

(** An instance of [confirmPickup_effect]: the accepted sample ride. *)
Lemma confirmPickup_effect_witness :
  (run (confirmPickup 30 1) one_accepted).2 = [Replied Success]
  ∧ (run (confirmPickup 30 1) one_request).2
      = [Replied (Error 400 "Ride not in accepted state")].
Proof.
  pose proof (confirmPickup_effect one_accepted 30 1 ltac:(lia)) as Ha.
  pose proof (confirmPickup_effect one_request 30 1 ltac:(lia)) as Hr.
  split.
  - destruct (rides (data one_accepted) !! 1) as [r|] eqn:E; [|discriminate E].
    case_bool_decide as Hst.
    + destruct Ha as [-> _]. reflexivity.
    + exfalso. apply Hst. vm_compute in E. by simplify_eq.
  - destruct (rides (data one_request) !! 1) as [r|] eqn:E.
    + case_bool_decide as Hst.
      * exfalso. vm_compute in E. by simplify_eq.
      * rewrite Hr. reflexivity.
    + rewrite Hr. reflexivity.
Defined.

(** ** The watchdog *)

Lemma watchdog_fire (c : conn) (rideID : Z) :
  match rides (data c) !! rideID with
  | Some r =>
      if bool_decide (Ride.status r = PENDING)
      then run (watchdog rideID) c
             = (with_data c (with_rides (data c)
                  (<[rideID := set_ride_status TIMEOUT r]> (rides (data c)))), [])
      else step (watchdog rideID) c = (c, [], Finish)
           ∧ run (watchdog rideID) c = (c, [])
  | None => step (watchdog rideID) c = (c, [], Finish)
            ∧ run (watchdog rideID) c = (c, [])
  end.
Proof.
  destruct c as [[rs rks locs hist rseq hseq] t u]. cbn [data rides].
  destruct (rs !! rideID) as [r|] eqn:Hride.
  - case_bool_decide as Hstatus.
    + unfold watchdog. sql_run. rewrite Hstatus. sql_run. reflexivity.
    + unfold watchdog. sql_run.
      destruct (Ride.status r); try done; split; reflexivity.
  - unfold watchdog. sql_run. split; reflexivity.
Qed.

(** C4 as stated fails on the code: the sample ride is accepted by
    RICK001 and then cancelled by RICK001, which makes it PENDING again;
    the watchdog of the ride, firing after that, sets it to TIMEOUT
    although the ride had been accepted before the watchdog fired. *)
Lemma watchdog_times_out_reopened_ride :
  let c := serve_all [acceptRide 20 1 "RICK001"; cancelRide 1 "RICK001"]
                     one_request in
  (run (acceptRide 20 1 "RICK001") one_request).2
    = [Replied (RideAccepted 1 "CUET_CAMPUS" "PAHARTOLI")]
  ∧ Ride.status <$> rides (data c) !! 1 = Some PENDING
  ∧ Ride.status <$> rides (data (serve c (watchdog 1))) !! 1 = Some TIMEOUT.
Proof. cbv zeta. repeat split; vm_compute; reflexivity. Qed.

(** C4, amended: a ride request arms one timer of 60000 ms whose task is
    the watchdog of the new ride.  Whatever the state is when that task
    fires: if the ride is then absent or not PENDING the task ends after
    its read, issues no write and changes nothing; if the ride is then
    PENDING (never accepted, or accepted and reopened by a cancellation)
    it becomes TIMEOUT.  In particular, fired on the state an acceptance
    of the ride has just left, the watchdog changes nothing. *)
Theorem watchdog_only_while_pending (c : conn) (now : Z)
    (blockID destination : string) (userID : option string) :
  blockID ≠ "" → destination ≠ "" →
  ∃ c1 rideID,
    run (requestRide now blockID destination userID) c
      = (c1, [Armed 60000 (watchdog rideID); Replied (RideRequested rideID)])
    ∧ Ride.status <$> rides (data c1) !! rideID = Some PENDING
    ∧ (∀ c2, (rides (data c2) !! rideID = None
              ∨ ∃ r, rides (data c2) !! rideID = Some r ∧ Ride.status r ≠ PENDING) →
             step (watchdog rideID) c2 = (c2, [], Finish)
             ∧ run (watchdog rideID) c2 = (c2, []))
    ∧ (∀ c2 r, rides (data c2) !! rideID = Some r → Ride.status r = PENDING →
               ∃ c3 r', run (watchdog rideID) c2 = (c3, [])
                        ∧ rides (data c3) = <[rideID := r']> (rides (data c2))
                        ∧ Ride.status r' = TIMEOUT)
    ∧ (∀ c2 now' rickshawID r,
         rideID ≠ 0 → rickshawID ≠ "" → txn c2 = None →
         rides (data c2) !! rideID = Some r → Ride.status r = PENDING →
         ∃ c3, (run (acceptRide now' rideID rickshawID) c2).1 = c3
               ∧ Ride.status <$> rides (data c3) !! rideID = Some ACCEPTED
               ∧ run (watchdog rideID) c3 = (c3, [])).
Proof.
  intros Hb Hd.
  exists (with_data c (insert_ride (default "GUEST" userID) blockID destination
                         now (data c)).1), (rides_seq (data c) + 1).
  split.
  { unfold requestRide.
    rewrite (missing_text_false _ Hb), (missing_text_false _ Hd).
    destruct c as [[rs rks locs hist rseq hseq] t u]. sql_run. reflexivity. }
  split.
  { unfold insert_ride, with_data. cbn [data rides fst].
    rewrite lookup_insert_eq. reflexivity. }
  split.
  { intros c2 Hride. pose proof (watchdog_fire c2 (rides_seq (data c) + 1)) as Hw.
    destruct Hride as [Hnone | (r & Hsome & Hstatus)].
    - by rewrite Hnone in Hw.
    - rewrite Hsome in Hw. by rewrite bool_decide_eq_false_2 in Hw. }
  split.
  { intros c2 r Hsome Hstatus.
    pose proof (watchdog_fire c2 (rides_seq (data c) + 1)) as Hw.
    rewrite Hsome, bool_decide_eq_true_2 in Hw by done.
    eexists _, _. split; [exact Hw|]. split; reflexivity. }
  intros c2 now' rickshawID r Hid Hk Htxn Hsome Hstatus.
  destruct (acceptRide_pending c2 now' _ rickshawID r Hid Hk Htxn Hsome Hstatus)
    as (c3 & Hrun & Hrides & _).
  exists c3. rewrite Hrun. split; [reflexivity|].
  assert (rides (data c3) !! (rides_seq (data c) + 1)
          = Some (set_accepted rickshawID now' r)) as Hacc.
  { rewrite Hrides. apply lookup_insert_eq. }
  split; [by rewrite Hacc|].
  pose proof (watchdog_fire c3 (rides_seq (data c) + 1)) as Hw.
  rewrite Hacc in Hw. apply Hw.
Qed.

(** An instance of [watchdog_only_while_pending]: the first request on a
    fresh database is ride 1; once RICK001 has accepted it, its watchdog
    leaves the state as it is. *)
Lemma watchdog_only_while_pending_witness :
  ∃ c1,
    run (requestRide 10 "CUET_CAMPUS" "PAHARTOLI" None) fresh_conn
      = (c1, [Armed 60000 (watchdog 1); Replied (RideRequested 1)])
    ∧ let c3 := (run (acceptRide 20 1 "RICK001") c1).1 in
      run (watchdog 1) c3 = (c3, []).
Proof.
  destruct (watchdog_only_while_pending fresh_conn 10 "CUET_CAMPUS" "PAHARTOLI" None)
    as (c1 & rideID & Hrun & Hpending & _ & _ & Haccept);
    [discriminate | discriminate |].
  assert (rideID = 1 ∧ c1 = (run (requestRide 10 "CUET_CAMPUS" "PAHARTOLI" None) fresh_conn).1) as [-> Hc1].
  { rewrite Hrun in *. vm_compute in Hrun. by simplify_eq. }
  exists c1. split; [exact Hrun|].
  destruct (rides (data c1) !! 1) as [r|] eqn:Hr; [|discriminate].
  destruct (Haccept c1 20 "RICK001" r) as (c3 & Hc3 & _ & Hw).
  - lia.
  - discriminate.
  - rewrite Hc1. reflexivity.
  - exact Hr.
  - cbn in Hpending. by simplify_eq.
  - cbv zeta. rewrite Hc3. exact Hw.
Defined.

(** ** Redeeming *)

(** C8 as stated fails at amount 0: RICK001 holds 10 points, which is not
    less than 0, yet the request is answered 400 [Missing fields]; no
    new balance is returned and no SPENT row is appended. *)
Lemma redeemPoints_zero_amount :
  Rickshaw.totalPoints <$> rickshaws (data one_completed) !! "RICK001" = Some 10
  ∧ run (redeemPoints 50 "RICK001" 0 "tea") one_completed
      = (one_completed, [Replied (Error 400 "Missing fields")])
  ∧ ¬ ∃ c' newBalance,
        run (redeemPoints 50 "RICK001" 0 "tea") one_completed
          = (c', [Replied (PointsRedeemed newBalance "tea")]).
Proof.
  split; [vm_compute; reflexivity|].
  split; [reflexivity|].
  intros (c' & b & H). discriminate H.
Qed.

(** C8, amended: for a registered rickshaw, a non-empty id and an amount
    other than 0.  A balance below the amount is answered 400
    [Insufficient points] with the connection state untouched; otherwise
    the balance is debited by exactly the amount, one SPENT row for the
    amount is appended to the log, and the answer carries the old
    balance minus the amount. *)
Theorem redeemPoints_effect (c : conn) (now : Z) (rickshawID : string)
    (points : Z) (rewardType : string) (rk : Rickshaw.t) :
  rickshawID ≠ "" → points ≠ 0 →
  rickshaws (data c) !! rickshawID = Some rk →
  (Rickshaw.totalPoints rk < points →
     run (redeemPoints now rickshawID points rewardType) c
       = (c, [Replied (Error 400 "Insufficient points")]))
  ∧ (points ≤ Rickshaw.totalPoints rk →
     ∃ c' rk',
       run (redeemPoints now rickshawID points rewardType) c
         = (c', [Replied (PointsRedeemed (Rickshaw.totalPoints rk - points) rewardType)])
       ∧ rickshaws (data c') = <[rickshawID := rk']> (rickshaws (data c))
       ∧ Rickshaw.totalPoints rk' = Rickshaw.totalPoints rk - points
       ∧ Rickshaw.status rk' = Rickshaw.status rk
       ∧ points_history (data c')
           = points_history (data c) ++
             [History.mk (history_seq (data c) + 1) rickshawID None 0 points
                SPENT now (NoteRedeemed rewardType)]
       ∧ rides (data c') = rides (data c)).
Proof.
  intros Hk Hpoints Hrk.
  destruct c as [[rs rks locs hist rseq hseq] t u]. cbn in Hrk.
  unfold redeemPoints.
  rewrite (missing_text_false _ Hk), (missing_id_false _ Hpoints).
  split; intros Hcmp; sql_run.
  - apply Z.ltb_lt in Hcmp. rewrite Hcmp. sql_run. reflexivity.
  - apply Z.ltb_ge in Hcmp. rewrite Hcmp. sql_run.
    eexists _, (add_points (- points) rk). split; [reflexivity|].
    cbn. repeat split; reflexivity.
Qed.

(** An instance of [redeemPoints_effect]: RICK001 holds 10 points;
    redeeming 4 leaves 6 and more than 10 is refused. *)
Lemma redeemPoints_effect_witness :
  run (redeemPoints 50 "RICK001" 11 "tea") one_completed
    = (one_completed, [Replied (Error 400 "Insufficient points")])
  ∧ ∃ c', run (redeemPoints 50 "RICK001" 4 "tea") one_completed
            = (c', [Replied (PointsRedeemed 6 "tea")]).
Proof.
  assert (∃ rk, rickshaws (data one_completed) !! "RICK001" = Some rk
                ∧ Rickshaw.totalPoints rk = 10) as (rk & Hrk & Htotal)
    by (eexists; split; vm_compute; reflexivity).
  split.
  - apply (redeemPoints_effect one_completed 50 "RICK001" 11 "tea" rk);
      [discriminate | lia | exact Hrk | lia].
  - destruct (redeemPoints_effect one_completed 50 "RICK001" 4 "tea" rk)
      as [_ Hok]; [discriminate | lia | exact Hrk |].
    destruct Hok as (c' & rk' & Hrun & _); [lia|].
    exists c'. rewrite Hrun, Htotal. reflexivity.
Defined.

(** ** Adjusting an award *)

(** [adjustPoints] on an existing ride: the ride's award becomes
    [newPoints] and its status COMPLETED whatever it was, the answer
    carries the difference to the award recorded before, and the
    assigned rickshaw, when registered, is credited that difference with
    one ADJUSTED row carrying it. *)
Theorem adjustPoints_effect (c : conn) (now rideID newPoints : Z)
    (reason : option string) (r : Ride.t) :
  rideID ≠ 0 →
  rides (data c) !! rideID = Some r →
  let pointDiff := newPoints - Ride.pointsAwarded r in
  ∃ c',
    run (adjustPoints now rideID (Some newPoints) reason) c
      = (c', [Replied (PointsAdjusted pointDiff)])
    ∧ rides (data c') = <[rideID := set_adjusted newPoints r]> (rides (data c))
    ∧ Ride.status (set_adjusted newPoints r) = COMPLETED
    ∧ Ride.pointsAwarded (set_adjusted newPoints r) = newPoints
    ∧ (∀ k rk, Ride.rickshawID r = Some k → rickshaws (data c) !! k = Some rk →
         Rickshaw.totalPoints <$> rickshaws (data c') !! k
           = Some (Rickshaw.totalPoints rk + pointDiff)
         ∧ points_history (data c')
             = points_history (data c) ++
               [History.mk (history_seq (data c) + 1) k (Some rideID) pointDiff 0
                  ADJUSTED now (NoteReason (default "Admin adjustment" reason))]).
Proof.
  intros Hid Hr pointDiff.
  destruct c as [[rs rks locs hist rseq hseq] t u]. cbn in Hr.
  unfold adjustPoints. rewrite (missing_id_false _ Hid). sql_run.
  destruct (Ride.rickshawID r) as [k|] eqn:Hk;
    [destruct (rks !! k) as [rk|] eqn:Hrk|]; sql_run;
    eexists; (split; [reflexivity|]); cbn [data rides rickshaws points_history];
    repeat (split; [reflexivity|]); intros k' rk' Hk' Hrk'; simplify_eq.
  rewrite lookup_insert_eq. split; reflexivity.
Qed.

(** An instance of [adjustPoints_effect]: the award of the completed
    sample ride is lowered from 10 to 7. *)
Lemma adjustPoints_effect_witness :
  ∃ c',
    run (adjustPoints 60 1 (Some 7) None) one_completed
      = (c', [Replied (PointsAdjusted (-3))])
    ∧ Rickshaw.totalPoints <$> rickshaws (data c') !! "RICK001" = Some 7.
Proof.
  assert (∃ r, rides (data one_completed) !! 1 = Some r
               ∧ Ride.pointsAwarded r = 10 ∧ Ride.rickshawID r = Some "RICK001")
    as (r & Hr & Hpts & Hk) by (eexists; repeat split; vm_compute; reflexivity).
  assert (∃ rk, rickshaws (data one_completed) !! "RICK001" = Some rk
                ∧ Rickshaw.totalPoints rk = 10)
    as (rk & Hrk & Htotal) by (eexists; split; vm_compute; reflexivity).
  destruct (adjustPoints_effect one_completed 60 1 7 None r)
    as (c' & Hrun & _ & _ & _ & Hcredit); [lia | exact Hr |].
  exists c'. rewrite Hpts in Hrun. split; [exact Hrun|].
  destruct (Hcredit "RICK001" rk Hk Hrk) as [Hbal _].
  rewrite Hbal, Htotal, Hpts. reflexivity.
Defined.

(** ** Registering again *)

(** [registerRickshaw] replaces the whole row: the points restart at 0
    and the status at AVAILABLE whatever they were, while the rides and
    the points log stay.  After the completed sample ride a second
    registration of RICK001 leaves a cached balance of 0 against a log
    worth 10. *)
Theorem registerRickshaw_replaces (c : conn) (now : Z) (rickshawID pullerName : string)
    (phoneNumber : option string) (currentLat currentLng : Q) :
  (∃ c',
     run (registerRickshaw now rickshawID pullerName phoneNumber currentLat currentLng) c
       = (c', [Replied Success])
     ∧ rickshaws (data c') !! rickshawID
         = Some (Rickshaw.mk pullerName phoneNumber currentLat currentLng
                   true 0 AVAILABLE now)
     ∧ rides (data c') = rides (data c)
     ∧ points_history (data c') = points_history (data c))
  ∧ let again := serve one_completed
                   (registerRickshaw 50 "RICK001" "Abdul Karim" None
                      (224633 # 10000) (919714 # 10000)) in
    Rickshaw.totalPoints <$> rickshaws (data one_completed) !! "RICK001" = Some 10
    ∧ Rickshaw.totalPoints <$> rickshaws (data again) !! "RICK001" = Some 0
    ∧ ledger_balance "RICK001" (points_history (data again)) = 10.
Proof.
  split.
  - destruct c as [[rs rks locs hist rseq hseq] t u].
    unfold registerRickshaw. sql_run. eexists. split; [reflexivity|].
    cbn [data rickshaws rides points_history]. rewrite lookup_insert_eq.
    repeat split; reflexivity.
  - cbv zeta. repeat split; vm_compute; reflexivity.
Qed.

(** ** The points ledger *)

Lemma sum_app (l1 l2 : list Z) :
  fold_right Z.add 0 (l1 ++ l2) = fold_right Z.add 0 l1 + fold_right Z.add 0 l2.
Proof. induction l1 as [|x l1 IH]; cbn; [reflexivity | rewrite IH; lia]. Qed.

Lemma recorded_snoc (type : transaction_type) (column : History.t → Z)
    (k : string) (hist : list History.t) (row : History.t) :
  recorded type column k (hist ++ [row])
  = recorded type column k hist
    + (if decide (History.rickshawID row = k ∧ History.transactionType row = type)
       then column row else 0).
Proof.
  unfold recorded. rewrite filter_app, map_app, sum_app. f_equal.
  rewrite filter_cons, filter_nil.
  destruct (decide _); cbn; lia.
Qed.

Lemma ledger_balance_snoc (k : string) (hist : list History.t) (row : History.t) :
  ledger_balance k (hist ++ [row])
  = ledger_balance k hist
    + (if decide (History.rickshawID row = k) then contribution row else 0).
Proof.
  unfold ledger_balance, sum_earned, sum_spent, sum_adjusted, sum_expired.
  rewrite !recorded_snoc. unfold contribution.
  destruct (decide (History.rickshawID row = k)) as [Hk|Hk];
    destruct (History.transactionType row);
    repeat (destruct (decide _) as [[? ?]|?]; try done; try tauto); lia.
Qed.

(** The debit or credit of a registered rickshaw together with its row. *)
Lemma balanced_credit (rks : gmap string Rickshaw.t) (hist : list History.t)
    (k : string) (rk rk' : Rickshaw.t) (row : History.t) :
  map_Forall (λ k0 rk0, Rickshaw.totalPoints rk0 = ledger_balance k0 hist) rks →
  rks !! k = Some rk →
  History.rickshawID row = k →
  Rickshaw.totalPoints rk' = Rickshaw.totalPoints rk + contribution row →
  map_Forall (λ k0 rk0, Rickshaw.totalPoints rk0 = ledger_balance k0 (hist ++ [row]))
             (<[k := rk']> rks).
Proof.
  intros Hbal Hrk Hrow Hrk' k0 rk0 Hk0. rewrite ledger_balance_snoc.
  destruct (decide (k = k0)) as [<-|Hne].
  - rewrite lookup_insert_eq in Hk0. simplify_eq.
    rewrite decide_True by done. rewrite Hrk'. by rewrite (Hbal _ _ Hrk).
  - rewrite lookup_insert_ne in Hk0 by done.
    rewrite decide_False by congruence. rewrite (Hbal _ _ Hk0). lia.
Qed.

(** A row for an id that is not registered touches no cached balance. *)
Lemma balanced_stray_row (rks : gmap string Rickshaw.t) (hist : list History.t)
    (row : History.t) :
  map_Forall (λ k0 rk0, Rickshaw.totalPoints rk0 = ledger_balance k0 hist) rks →
  rks !! History.rickshawID row = None →
  map_Forall (λ k0 rk0, Rickshaw.totalPoints rk0 = ledger_balance k0 (hist ++ [row]))
             rks.
Proof.
  intros Hbal Hnone k0 rk0 Hk0. rewrite ledger_balance_snoc.
  rewrite decide_False by (intros <-; congruence).
  rewrite (Hbal _ _ Hk0). lia.
Qed.

(** A change of a rickshaw row that keeps its [totalPoints]. *)
Lemma balanced_same_points (rks : gmap string Rickshaw.t) (hist : list History.t)
    (k : string) (rk rk' : Rickshaw.t) :
  map_Forall (λ k0 rk0, Rickshaw.totalPoints rk0 = ledger_balance k0 hist) rks →
  rks !! k = Some rk →
  Rickshaw.totalPoints rk' = Rickshaw.totalPoints rk →
  map_Forall (λ k0 rk0, Rickshaw.totalPoints rk0 = ledger_balance k0 hist)
             (<[k := rk']> rks).
Proof.
  intros Hbal Hrk Hrk' k0 rk0 Hk0.
  destruct (decide (k = k0)) as [<-|Hne].
  - rewrite lookup_insert_eq in Hk0. simplify_eq. rewrite Hrk'. by apply Hbal.
  - rewrite lookup_insert_ne in Hk0 by done. by apply Hbal.
Qed.

Ltac balanced_closed :=
  unfold balanced_by; cbn [rickshaws points_history];
  first
    [ assumption
    | eapply balanced_credit; [eassumption | eassumption | reflexivity | cbn; unfold contribution; cbn; lia]
    | eapply balanced_stray_row; [eassumption | assumption]
    | eapply balanced_same_points; [eassumption | eassumption | reflexivity] ].

Lemma expire_each_balanced (now expiryDays : Z) (rows : list (string * Z)) (c : conn) :
  balanced_by ledger_balance (data c) →
  balanced_by ledger_balance (data (run (expire_each now expiryDays rows) c).1).
Proof.
  revert c. induction rows as [|[k pts] rows IH]; intros c Hbal; [exact Hbal|].
  destruct c as [[rs rks locs hist rseq hseq] t u].
  unfold balanced_by in Hbal. cbn [data rickshaws points_history] in Hbal.
  cbn [expire_each]. sql_run.
  destruct (rks !! k) as [rk|] eqn:Hrk; sql_run; apply IH; balanced_closed.
Qed.

Lemma expirePoints_balanced (now days : Z) (c : conn) :
  balanced_by ledger_balance (data c) →
  balanced_by ledger_balance (data (run (expirePoints now days) c).1).
Proof.
  intros Hbal. unfold expirePoints. cbn [run]. unfold query at 1.
  destruct (expired_rows _ (data c)) as [|row rows] eqn:Hrows.
  - exact Hbal.
  - cbn [run].
    pose proof (expire_each_balanced now (if days =? 0 then 180 else days)
                  (row :: rows) c Hbal) as H.
    destruct (run (expire_each _ _ (row :: rows)) c) as [c' es]. exact H.
Qed.

Lemma redeemPoints_balanced (now : Z) (k : string) (points : Z) (reward : string)
    (c : conn) :
  balanced_by ledger_balance (data c) →
  balanced_by ledger_balance (data (run (redeemPoints now k points reward) c).1).
Proof.
  intros Hbal. destruct c as [[rs rks locs hist rseq hseq] t u].
  unfold balanced_by in Hbal. cbn [data rickshaws points_history] in Hbal.
  unfold redeemPoints.
  destruct (missing_text k || missing_id points); [exact Hbal|].
  sql_run. destruct (rks !! k) as [rk|] eqn:Hrk; sql_run; [|exact Hbal].
  destruct (Rickshaw.totalPoints rk <? points); sql_run; [exact Hbal|].
  balanced_closed.
Qed.

Lemma adjustPoints_balanced (now rideID : Z) (newPoints : option Z)
    (reason : option string) (c : conn) :
  balanced_by ledger_balance (data c) →
  balanced_by ledger_balance (data (run (adjustPoints now rideID newPoints reason) c).1).
Proof.
  intros Hbal. destruct c as [[rs rks locs hist rseq hseq] t u].
  unfold balanced_by in Hbal. cbn [data rickshaws points_history] in Hbal.
  unfold adjustPoints.
  destruct newPoints as [newPoints|]; [|exact Hbal].
  destruct (missing_id rideID); [exact Hbal|].
  sql_run. destruct (rs !! rideID) as [r|] eqn:Hr; sql_run; [|exact Hbal].
  destruct (Ride.rickshawID r) as [k|] eqn:Hk; sql_run; [|exact Hbal].
  destruct (rks !! k) as [rk|] eqn:Hrk; sql_run; balanced_closed.
Qed.

Lemma completeRide_balanced (calculateDistance : Q → Q → Q → Q → jsnum)
    (now rideID : Z) (dropLat dropLng : option Q) (c : conn) :
  balanced_by ledger_balance (data c) →
  balanced_by ledger_balance
    (data (run (completeRide calculateDistance now rideID dropLat dropLng) c).1).
Proof.
  intros Hbal. destruct c as [[rs rks locs hist rseq hseq] t u].
  unfold balanced_by in Hbal. cbn [data rickshaws points_history] in Hbal.
  unfold completeRide.
  destruct dropLat as [dropLat|], dropLng as [dropLng|]; try exact Hbal.
  destruct (missing_id rideID); [exact Hbal|].
  sql_run. destruct (rs !! rideID) as [r|] eqn:Hr; sql_run; [|exact Hbal].
  destruct (locs !! Ride.destination r) as [dest|] eqn:Hdest; sql_run; [|exact Hbal].
  destruct (0 <? calculatePoints _); sql_run;
    (destruct (Ride.rickshawID r) as [k|] eqn:Hk; sql_run; [|exact Hbal]);
    destruct (rks !! k) as [rk|] eqn:Hrk; sql_run; balanced_closed.
Qed.

Lemma ledger_handler_balanced (calculateDistance : Q → Q → Q → Q → jsnum)
    (op : ledger_op) (c : conn) :
  balanced_by ledger_balance (data c) →
  balanced_by ledger_balance (data (serve c (ledger_handler calculateDistance op))).
Proof.
  destruct op; cbn [ledger_handler]; unfold serve.
  - apply completeRide_balanced.
  - apply redeemPoints_balanced.
  - apply adjustPoints_balanced.
  - apply expirePoints_balanced.
Qed.

(** C3 as stated fails on the code: after the sample ride is completed
    (10 points earned) and the points are expired, RICK001's cached
    balance is 0 while earned - spent + adjusted - expired over the
    recorded amounts is 10 - 0 + 0 - (-10) = 20; the formula held before
    the two operations. *)
Lemma expiry_breaks_spec_balance :
  let ops := [Complete 40 1 (Some pahartoli_lat) (Some pahartoli_lng);
              Expire 20000000 180] in
  let c := serve_all (map (ledger_handler grid_distance) ops) one_picked_up in
  balanced_by spec_balance (data one_picked_up)
  ∧ Rickshaw.totalPoints <$> rickshaws (data c) !! "RICK001" = Some 0
  ∧ spec_balance "RICK001" (points_history (data c)) = 20
  ∧ ¬ balanced_by spec_balance (data c).
Proof.
  cbv zeta. split; [apply (bool_decide_unpack _); vm_compute; exact I|].
  split; [vm_compute; reflexivity|]. split; [vm_compute; reflexivity|].
  apply (bool_decide_eq_false_1 _). vm_compute. reflexivity.
Qed.

(** C3, amended: with the EXPIRED amounts added instead of subtracted
    (they are recorded negated), the equation between every registered
    rickshaw's cached [totalPoints] and its log,
    earned - spent + adjusted + expired, is kept by every sequence of
    completions, redemptions, award adjustments and expiry runs. *)
Theorem ledger_balance_kept (calculateDistance : Q → Q → Q → Q → jsnum)
    (ops : list ledger_op) (c : conn) :
  balanced_by ledger_balance (data c) →
  balanced_by ledger_balance
    (data (serve_all (map (ledger_handler calculateDistance) ops) c)).
Proof.
  revert c. induction ops as [|op ops IH]; intros c Hbal; [exact Hbal|].
  cbn [map serve_all fold_left]. apply IH.
  by apply ledger_handler_balanced.
Qed.

(** An instance of [ledger_balance_kept]: the sample ride is completed,
    4 points are redeemed, the award is adjusted to 7 and the points are
    expired twice; RICK001's balance still equals its log. *)
Lemma ledger_balance_kept_witness :
  let ops := [Complete 40 1 (Some pahartoli_lat) (Some pahartoli_lng);
              Redeem 50 "RICK001" 4 "tea";
              Adjust 60 1 (Some 7) None;
              Expire 20000000 180;
              Expire 20000000 180] in
  let c := serve_all (map (ledger_handler grid_distance) ops) one_picked_up in
  ∃ rk, rickshaws (data c) !! "RICK001" = Some rk
        ∧ Rickshaw.totalPoints rk = ledger_balance "RICK001" (points_history (data c)).
Proof.
  intros ops c.
  assert (balanced_by ledger_balance (data c)) as Hbal.
  { apply ledger_balance_kept.
    apply (bool_decide_unpack _). vm_compute. exact I. }
  destruct (rickshaws (data c) !! "RICK001") as [rk|] eqn:Hrk.
  - exists rk. split; [reflexivity|]. exact (Hbal _ _ Hrk).
  - vm_compute in Hrk. discriminate Hrk.
Defined.

(** ** Expiry *)

(** The NOT EXISTS clause compares a row with rows of the same
    [historyID], that is with itself: in a table whose ids are distinct it
    excludes nothing, and expiry selects every old EARNED row again.  What
    is old goes by the calendar day: the rows of the threshold's own day
    are selected whatever their time of day. *)
Lemma expirable_ignores_expired (expiryDate : Z) (hist : list History.t)
    (h : History.t) :
  NoDup (map History.historyID hist) → h ∈ hist →
  expirable expiryDate hist h
  = bool_decide (History.transactionType h = EARNED)
    && (day_of (History.transactionDate h) <=? day_of expiryDate).
Proof.
  intros Hnodup Hin. unfold expirable, text_before.
  destruct (bool_decide (History.transactionType h = EARNED)) eqn:Hearned;
    [|reflexivity].
  apply bool_decide_eq_true in Hearned.
  rewrite <- (andb_true_r (true && _)) at 2. f_equal.
  apply negb_true_iff, not_true_iff_false. intros Hex.
  apply existsb_exists in Hex as (h2 & Hin2 & Hsame).
  apply andb_true_iff in Hsame as [Hid Hexp].
  apply Z.eqb_eq in Hid. apply bool_decide_eq_true in Hexp.
  assert (h2 = h) as ->; [|congruence].
  apply list_elem_of_In in Hin2.
  apply list_elem_of_lookup in Hin as [i Hi], Hin2 as [j Hj].
  assert (i = j) as ->; [|congruence].
  eapply NoDup_lookup; [exact Hnodup| |]; rewrite list_lookup_fmap.
  - by rewrite Hi.
  - rewrite Hj. cbn. by rewrite Hid.
Qed.

(** An instance of [expirable_ignores_expired]: after a first expiry run
    the EARNED row of the sample ride is still selected. *)
Lemma expirable_ignores_expired_witness :
  let hist := points_history (data (serve one_completed (expirePoints 20000000 180))) in
  ∃ h, hist !! 0%nat = Some h
       ∧ History.transactionType h = EARNED
       ∧ History.transactionDate h = 40
       ∧ expirable 4448000 hist h = true
       ∧ expirable 10 hist h = true.
Proof.
  intros hist.
  destruct (hist !! 0%nat) as [h|] eqn:Hh; [|vm_compute in Hh; discriminate Hh].
  exists h. split; [reflexivity|].
  assert (History.transactionType h = EARNED ∧ History.transactionDate h = 40)
    as [Htype Hdate] by (vm_compute in Hh; by simplify_eq).
  split; [exact Htype|]. split; [exact Hdate|].
  assert (NoDup (map History.historyID hist)) as Hids
    by (apply (bool_decide_unpack _); vm_compute; exact I).
  assert (h ∈ hist) as Hin by (apply list_elem_of_lookup; by exists 0%nat).
  rewrite !(expirable_ignores_expired _ hist h Hids Hin), Htype, Hdate.
  by split.
Defined.

(** C7 fails on the code: the EARNED row of the sample ride (10 points)
    is expired by the first run and again by a second run with the same
    clock and threshold; the balance goes 10, 0, -10 and the log ends
    with two EXPIRED rows of -10. *)
Theorem expirePoints_expires_twice :
  let c1 := serve one_completed (expirePoints 20000000 180) in
  let c2 := serve c1 (expirePoints 20000000 180) in
  let balance (c : conn) := Rickshaw.totalPoints <$> rickshaws (data c) !! "RICK001" in
  balance one_completed = Some 10
  ∧ balance c1 = Some 0
  ∧ balance c2 = Some (-10)
  ∧ (run (expirePoints 20000000 180) c1).2 = [Replied (PointsExpired 10 (Some 1%nat))]
  ∧ map (λ h, (History.transactionType h, History.pointsEarned h))
        (points_history (data c2))
    = [(EARNED, 10); (EXPIRED, -10); (EXPIRED, -10)].
Proof. cbv zeta. repeat split; vm_compute; reflexivity. Qed.

(** ** Two acceptances in flight *)

Lemma step_accept_begin (c : conn) (now rideID : Z) (k : string) :
  txn c = None →
  step (accept_begin now rideID k) c
    = ({| data := data c; txn := Some (data c); unhandled := unhandled c |}, [],
       accept_select now rideID k)
  ∧ fails (accept_begin now rideID k) c = false.
Proof. intros Htxn. unfold accept_begin, step, fails, sql_begin. by rewrite Htxn. Qed.

Lemma step_accept_begin_open (c : conn) (now rideID : Z) (k : string) (saved : db) :
  txn c = Some saved →
  step (accept_begin now rideID k) c
    = (raise "cannot start a transaction within a transaction" c, [],
       accept_begin now rideID k)
  ∧ fails (accept_begin now rideID k) c = true.
Proof. intros Htxn. unfold accept_begin, step, fails, sql_begin. by rewrite Htxn. Qed.

Lemma step_accept_select_pending (c : conn) (now rideID : Z) (k : string)
    (row : Ride.t) :
  rides (data c) !! rideID = Some row → Ride.status row = PENDING →
  step (accept_select now rideID k) c = (c, [], accept_update now rideID k row)
  ∧ fails (accept_select now rideID k) c = false.
Proof.
  intros Hrow Hst. unfold accept_select, step, fails, query. rewrite Hrow.
  unfold accept_selected, is_status. by rewrite bool_decide_eq_true_2.
Qed.

Lemma step_accept_select_taken (c : conn) (now rideID : Z) (k : string)
    (row : Ride.t) :
  rides (data c) !! rideID = Some row → Ride.status row ≠ PENDING →
  step (accept_select now rideID k) c
    = (c, [Replied (AcceptRefused "Ride already taken by another puller")],
       accept_rollback)
  ∧ fails (accept_select now rideID k) c = false.
Proof.
  intros Hrow Hst. unfold accept_select, step, fails, query. rewrite Hrow.
  unfold accept_selected, is_status. by rewrite bool_decide_eq_false_2.
Qed.

Lemma step_accept_update (c : conn) (now rideID : Z) (k : string) (row : Ride.t) :
  rides (data c) !! rideID = Some row → Ride.status row = PENDING →
  step (accept_update now rideID k row) c
    = (with_data c (with_rides (data c)
         (<[rideID := set_accepted k now row]> (rides (data c)))),
       [Replied (RideAccepted rideID (Ride.pickupBlock row) (Ride.destination row))],
       accept_mark k)
  ∧ fails (accept_update now rideID k row) c = false.
Proof.
  intros Hrow Hst. unfold accept_update, step, fails, exec, update_ride.
  rewrite Hrow. unfold is_status. by rewrite bool_decide_eq_true_2.
Qed.

Lemma step_accept_mark (c : conn) (k : string) :
  step (accept_mark k) c
    = (with_data c
         (update_rickshaw (Some k) (set_rickshaw_status ON_RIDE) (data c)).1,
       [], accept_commit)
  ∧ fails (accept_mark k) c = false.
Proof.
  unfold accept_mark, step, fails, exec.
  by destruct (update_rickshaw _ _ (data c)).
Qed.

Lemma step_accept_commit (c : conn) (saved : db) :
  txn c = Some saved →
  step accept_commit c
    = ({| data := data c; txn := None; unhandled := unhandled c |}, [], Finish)
  ∧ fails accept_commit c = false.
Proof. intros Htxn. unfold accept_commit, step, fails, sql_commit. by rewrite Htxn. Qed.

Lemma step_accept_rollback (c : conn) (saved : db) :
  txn c = Some saved →
  step accept_rollback c
    = ({| data := saved; txn := None; unhandled := unhandled c |}, [], Finish)
  ∧ fails accept_rollback c = false.
Proof.
  intros Htxn. unfold accept_rollback, step, fails, sql_rollback. by rewrite Htxn.
Qed.

Lemma advance_seen_from (leader who : bool) (c : conn)
    (lead follow : handler * list event) :
  advance (seen_from leader c lead follow false) who
  = if (if Bool.eqb who leader then negb (finished lead.1) else finished follow.1)
    then seen_from leader (step lead.1 c).1.1
           ((step lead.1 c).2, lead.2 ++ (step lead.1 c).1.2) follow
           (fails lead.1 c)
    else seen_from leader (step follow.1 c).1.1 lead
           ((step follow.1 c).2, follow.2 ++ (step follow.1 c).1.2)
           (fails follow.1 c).
Proof.
  destruct lead as [h es], follow as [h' es'].
  destruct leader, who; unfold advance, seen_from; cbn [exited first second
    first_events second_events connection fst snd Bool.eqb];
    destruct (finished h), (finished h'); cbn [negb];
    first [ by destruct (step h c) as [[c1 e1] h1]
          | by destruct (step h' c) as [[c1 e1] h1] ].
Qed.

Lemma advance_gone (r : race) (who : bool) : exited r = true → advance r who = r.
Proof. intros Hr. unfold advance. by rewrite Hr. Qed.

Lemma update_rickshaw_rides (k : option string) (set : Rickshaw.t → Rickshaw.t)
    (d : db) :
  rides (update_rickshaw k set d).1 = rides d.
Proof.
  unfold update_rickshaw. destruct k as [k|]; [|done].
  by destruct (rickshaws d !! k).
Qed.

Section AcceptancesInFlight.

Variables (c0 : conn) (now1 now2 rideID : Z) (k1 k2 : string) (row : Ride.t).
Hypothesis Htxn : txn c0 = None.
Hypothesis Hrow : rides (data c0) !! rideID = Some row.
Hypothesis Hpending : Ride.status row = PENDING.

#[local] Abbreviation in_phase := (in_phase c0 now1 now2 rideID k1 k2 row).
#[local] Abbreviation connection_after := (connection_after c0 now1 now2 rideID k1 k2 row).

Lemma rickshaw_taken_ride (leader : bool) :
  rides (rickshaw_taken c0 now1 now2 rideID k1 k2 row leader) !! rideID
  = Some (set_accepted (puller k1 k2 leader) (clock now1 now2 leader) row).
Proof.
  unfold rickshaw_taken. rewrite update_rickshaw_rides.
  unfold ride_taken. cbn [rides with_rides]. by rewrite lookup_insert_eq.
Qed.

Ltac finished_eval :=
  repeat match goal with
  | |- context [finished ?h] =>
      let b := eval hnf in (finished h) in change (finished h) with b
  end.

Ltac race_step :=
  match goal with
  | |- context [step (accept_begin ?now ?id ?k) ?c] =>
      first [ destruct (step_accept_begin c now id k eq_refl) as [-> ->]
            | destruct (step_accept_begin_open c now id k _ eq_refl) as [-> ->] ]
  | |- context [step (accept_select ?now ?id ?k) ?c] =>
      first [ destruct (step_accept_select_pending c now id k row Hrow Hpending)
                as [-> ->]
            | destruct (step_accept_select_taken c now id k _
                          (rickshaw_taken_ride _) ltac:(done)) as [-> ->] ]
  | |- context [step (accept_update ?now ?id ?k ?r) ?c] =>
      destruct (step_accept_update c now id k r Hrow Hpending) as [-> ->]
  | |- context [step (accept_mark ?k) ?c] =>
      destruct (step_accept_mark c k) as [-> ->]
  | |- context [step accept_commit ?c] =>
      destruct (step_accept_commit c _ eq_refl) as [-> ->]
  | |- context [step accept_rollback ?c] =>
      destruct (step_accept_rollback c _ eq_refl) as [-> ->]
  end.

Lemma advance_in_phase (p : phase) (who : bool) :
  match p with Running _ n => (1 ≤ n)%nat | _ => True end →
  advance (in_phase p) who = in_phase (next_phase p who).
Proof.
  destruct p as [|leader n|leader n]; intros Hn.
  - (* nothing has run: whoever is picked begins *)
    destruct who; cbn [in_phase next_phase]; rewrite advance_seen_from;
      cbn [leader_after follower_after fst snd finished negb Bool.eqb
           connection_after puller clock];
      destruct (step_accept_begin c0 now1 rideID k1 Htxn) as [-> ->];
      destruct (step_accept_begin c0 now2 rideID k2 Htxn) as [E2 F2];
      try rewrite E2, F2; reflexivity.
  - destruct n as [|[|[|[|[|[|[|[|n]]]]]]]]; [lia|..];
      cbn [in_phase next_phase Nat.ltb Nat.leb]; rewrite advance_seen_from;
      cbn [leader_after follower_after fst snd connection_after];
      finished_eval; destruct (Bool.eqb who leader); cbn [negb].
    all: try race_step; reflexivity.
  - cbn [in_phase next_phase]. apply advance_gone. by destruct leader.
Qed.

Lemma arrive_in_phase :
  rideID ≠ 0 → k1 ≠ "" → k2 ≠ "" →
  arrive (acceptRide now1 rideID k1) (acceptRide now2 rideID k2) c0
  = in_phase Arrived.
Proof.
  intros Hid Hk1 Hk2. unfold acceptRide.
  rewrite (missing_id_false _ Hid), (missing_text_false _ Hk1),
    (missing_text_false _ Hk2).
  reflexivity.
Qed.

Lemma interleave_in_phase (schedule : list bool) (p : phase) :
  match p with Running _ n => (1 ≤ n)%nat | _ => True end →
  interleave schedule (in_phase p) = in_phase (fold_left next_phase schedule p).
Proof.
  unfold interleave. revert p.
  induction schedule as [|who schedule IH]; intros p Hp; [reflexivity|].
  cbn [fold_left]. rewrite (advance_in_phase p who Hp). apply IH.
  destruct p as [|leader n|leader n]; cbn [next_phase]; [lia| |done].
  destruct (n <? 5)%nat; [destruct (Bool.eqb who leader); [lia|done]|].
  destruct (n <? 8)%nat; lia.
Qed.

End AcceptancesInFlight.

Lemma gone_stays (schedule : list bool) (leader : bool) (n : nat) :
  fold_left next_phase schedule (Gone leader n) = Gone leader n.
Proof. induction schedule as [|who schedule IH]; [reflexivity | exact IH]. Qed.

Lemma running_ends (schedule : list bool) (leader : bool) (n : nat) :
  (1 ≤ n ≤ 8)%nat → (8 ≤ n + length schedule)%nat →
  fold_left next_phase schedule (Running leader n) = Running leader 8
  ∨ ∃ m, (1 ≤ m ≤ 4)%nat
         ∧ fold_left next_phase schedule (Running leader n) = Gone leader m.
Proof.
  revert n. induction schedule as [|who schedule IH]; intros n Hn Hlen.
  - cbn in Hlen. left. cbn. f_equal. lia.
  - cbn [fold_left next_phase length] in *.
    destruct (n <? 5)%nat eqn:H5.
    + apply Nat.ltb_lt in H5. destruct (Bool.eqb who leader).
      * apply IH; lia.
      * right. exists n. split; [lia | apply gone_stays].
    + apply Nat.ltb_ge in H5. destruct (n <? 8)%nat eqn:H8.
      * apply Nat.ltb_lt in H8. apply IH; lia.
      * apply Nat.ltb_ge in H8. apply IH; lia.
Qed.

Lemma arrived_ends (schedule : list bool) :
  (8 ≤ length schedule)%nat →
  ∃ leader,
    fold_left next_phase schedule Arrived = Running leader 8
    ∨ ∃ m, (1 ≤ m ≤ 4)%nat
           ∧ fold_left next_phase schedule Arrived = Gone leader m.
Proof.
  destruct schedule as [|who schedule]; cbn [length fold_left next_phase];
    [lia|]. intros Hlen.
  exists who. apply running_ends; lia.
Qed.


(** C1: two acceptances of a PENDING ride whose transactions overlap do
    not end with one success and one contention result.  The statements
    run in the order they were issued, BEGIN (1), SELECT (1), BEGIN (2):
    the second BEGIN finds the transaction of the first open on the
    shared connection and fails; it was issued without a callback, so the
    process exits.  Neither call is answered, whatever is scheduled
    afterwards, and the database file has the ride as it was, PENDING and
    without a rickshaw. *)
Theorem concurrent_accept_exits (c : conn) (now1 now2 rideID : Z)
    (k1 k2 : string) (row : Ride.t) (rest : list bool) :
  rideID ≠ 0 → k1 ≠ "" → k2 ≠ "" → txn c = None →
  rides (data c) !! rideID = Some row →
  Ride.status row = PENDING →
  let r := interleave (true :: true :: false :: rest)
             (arrive (acceptRide now1 rideID k1) (acceptRide now2 rideID k2) c) in
  exited r = true
  ∧ unhandled (connection r)
      = unhandled c ++ ["cannot start a transaction within a transaction"]
  ∧ first_events r = []
  ∧ second_events r = []
  ∧ finished (first r) = false
  ∧ finished (second r) = false
  ∧ database_file (connection r) = data c
  ∧ rides (database_file (connection r)) !! rideID = Some row.
Proof.
  intros Hid Hk1 Hk2 Htxn Hrow Hpending r. subst r.
  rewrite (arrive_in_phase c now1 now2 rideID k1 k2 row Hid Hk1 Hk2).
  rewrite (interleave_in_phase c now1 now2 rideID k1 k2 row Htxn Hrow Hpending)
    by exact I.
  cbn [fold_left next_phase Nat.ltb Nat.leb Bool.eqb]. rewrite gone_stays.
  cbn. by repeat split.
Qed.

Lemma concurrent_accept_exits_witness :
  let r := interleave [true; true; false]
             (arrive (acceptRide 20 1 "RICK001") (acceptRide 20 1 "RICK002")
                     one_request) in
  exited r = true
  ∧ first_events r = []
  ∧ second_events r = []
  ∧ Ride.status <$> rides (database_file (connection r)) !! 1 = Some PENDING
  ∧ Ride.rickshawID <$> rides (database_file (connection r)) !! 1 = Some None.
Proof.
  pose proof (concurrent_accept_exits one_request 20 20 1 "RICK001" "RICK002"
                (Ride.mk "GUEST" None "CUET_CAMPUS" "PAHARTOLI" 10 None None None
                   PENDING None None None 0) []
                ltac:(done) ltac:(done) ltac:(done) eq_refl
                ltac:(vm_compute; reflexivity) eq_refl)
    as (Hexit & _ & H1 & H2 & _ & _ & _ & Hride).
  cbv zeta. rewrite Hexit, H1, H2, Hride. by repeat split.
Defined.

(** Two acceptances of a PENDING ride, whatever the order in which their
    statements run.  Either the second BEGIN comes after the first
    request has committed: then both are answered, the first one is
    granted, the other one is refused, and the ride is the winner's.  Or
    the second BEGIN comes earlier, fails, and the process exits: the
    request that began second is never answered, the one that began first
    is answered [success: true] if its UPDATE had run and not at all
    otherwise, and the database file has the ride as it was, PENDING. *)
Theorem concurrent_accept_outcomes (c : conn) (now1 now2 rideID : Z)
    (k1 k2 : string) (row : Ride.t) (schedule : list bool) :
  rideID ≠ 0 → k1 ≠ "" → k2 ≠ "" → txn c = None →
  rides (data c) !! rideID = Some row →
  Ride.status row = PENDING →
  (8 ≤ length schedule)%nat →
  let r := interleave schedule
             (arrive (acceptRide now1 rideID k1) (acceptRide now2 rideID k2) c) in
  let on_file := rides (database_file (connection r)) !! rideID in
  let granted :=
    [Replied (RideAccepted rideID (Ride.pickupBlock row) (Ride.destination row))] in
  let refused :=
    [Replied (AcceptRefused "Ride already taken by another puller")] in
  (exited r = false
   ∧ finished (first r) = true
   ∧ finished (second r) = true
   ∧ txn (connection r) = None
   ∧ ((first_events r = granted ∧ second_events r = refused
       ∧ on_file = Some (set_accepted k1 now1 row))
      ∨ (first_events r = refused ∧ second_events r = granted
         ∧ on_file = Some (set_accepted k2 now2 row))))
  ∨ (exited r = true
     ∧ on_file = Some row
     ∧ ((finished (second r) = false ∧ second_events r = []
         ∧ (first_events r = [] ∨ first_events r = granted))
        ∨ (finished (first r) = false ∧ first_events r = []
           ∧ (second_events r = [] ∨ second_events r = granted)))).
Proof.
  intros Hid Hk1 Hk2 Htxn Hrow Hpending Hlen r. subst r.
  rewrite (arrive_in_phase c now1 now2 rideID k1 k2 row Hid Hk1 Hk2).
  rewrite (interleave_in_phase c now1 now2 rideID k1 k2 row Htxn Hrow Hpending)
    by exact I.
  destruct (arrived_ends schedule Hlen) as [leader [-> | (m & Hm & ->)]].
  - left. cbn [in_phase]. unfold seen_from.
    pose proof (rickshaw_taken_ride c now1 now2 rideID k1 k2 row leader) as Hwon.
    destruct leader; cbn in Hwon |- *; rewrite Hwon; repeat split; auto.
  - right.
    destruct m as [|[|[|[|[|m]]]]]; try lia;
      destruct leader; cbn; rewrite Hrow; repeat split; auto.
Qed.

Lemma concurrent_accept_outcomes_witness :
  let r := interleave [true; true; true; true; true; false; false; false]
             (arrive (acceptRide 20 1 "RICK001") (acceptRide 21 1 "RICK002")
                     one_request) in
  exited r = false
  ∧ first_events r = [Replied (RideAccepted 1 "CUET_CAMPUS" "PAHARTOLI")]
  ∧ second_events r
      = [Replied (AcceptRefused "Ride already taken by another puller")]
  ∧ Ride.rickshawID <$> rides (data (connection r)) !! 1 = Some (Some "RICK001").
Proof.
  pose proof (concurrent_accept_outcomes one_request 20 21 1 "RICK001" "RICK002"
                (Ride.mk "GUEST" None "CUET_CAMPUS" "PAHARTOLI" 10 None None None
                   PENDING None None None 0)
                [true; true; true; true; true; false; false; false]
                ltac:(done) ltac:(done) ltac:(done) eq_refl
                ltac:(vm_compute; reflexivity) eq_refl ltac:(cbn; lia)) as H.
  cbv zeta in H |- *.
  destruct H as [(Hexit & _) | (Hexit & _)]; [|vm_compute in Hexit; discriminate].
  split; [exact Hexit|]. clear Hexit.
  repeat split; vm_compute; reflexivity.
Defined.

(** ** The watchdog against an acceptance in flight *)

(** The watchdog's UPDATE has no status condition.  RICK001's acceptance
    of the sample ride and the ride's watchdog are in flight together,
    every statement executing in the order it was issued: BEGIN, SELECT
    (acceptance), SELECT (watchdog, reads PENDING), UPDATE (acceptance),
    UPDATE (watchdog), UPDATE rickshaws, COMMIT.  RICK001 is answered
    [success: true] and is ON_RIDE, and the ride it was given is
    TIMEOUT. *)
Theorem watchdog_overwrites_acceptance :
  let r := interleave [true; true; false; true; false; true; true]
             (arrive (acceptRide 59 1 "RICK001") (watchdog 1) one_request) in
  finished (first r) = true
  ∧ finished (second r) = true
  ∧ first_events r = [Replied (RideAccepted 1 "CUET_CAMPUS" "PAHARTOLI")]
  ∧ Ride.status <$> rides (data (connection r)) !! 1 = Some TIMEOUT
  ∧ Ride.rickshawID <$> rides (data (connection r)) !! 1 = Some (Some "RICK001")
  ∧ Rickshaw.status <$> rickshaws (data (connection r)) !! "RICK001" = Some ON_RIDE
  ∧ txn (connection r) = None
  ∧ unhandled (connection r) = [].
Proof. cbv zeta. repeat split; vm_compute; reflexivity. Qed.
